(** * Range-Control: the booking workflow of [range_booking_automation.py]

    A shallow embedding of [RangeBookingAutomation] (bookings, conflict
    detection, the approve / deny / reschedule / bump / cancel workflow, the
    audit log and the resource query) and the properties of its
    specification.

    Python objects that the code mutates in place ([Booking]) live in a
    store indexed by references; the system's [bookings] list and the audit
    entries hold references into that store, so aliasing is as in the
    source.  [User] and [Resource] objects are never written by any method
    and are embedded by value.  Exceptions are outcomes of a state monad
    that keeps the state reached when the exception is raised.

    The first part embeds the workflow on naive datetimes, whose
    comparisons always have a value.  The part on datetimes with a time
    zone embeds the methods that compare the times of bookings on
    datetimes that may carry a [tzinfo], where a comparison can raise
    [TypeError] in the middle of a method, and shows that on naive values
    they are the methods of the first part. *)

From Stdlib Require Import NArith ZArith String Ascii List Sorted DecimalString Lia.
From stdpp Require Import base decidable option list functions gmap strings fin_maps.

Open Scope string_scope.
Open Scope list_scope.

(** ** datetime

    Naive [datetime.datetime] values: the seven calendar fields.  CPython
    compares two naive datetimes by comparing the tuples
    [(year, month, day, hour, minute, second, microsecond)]. *)

Record datetime := mk_datetime {
  year : N; month : N; day : N;
  hour : N; minute : N; second : N; microsecond : N
}.

Definition dt_fields (d : datetime) : list N :=
  [year d; month d; day d; hour d; minute d; second d; microsecond d].

Fixpoint lex_compare (xs ys : list N) : comparison :=
  match xs, ys with
  | [], [] => Eq
  | [], _ :: _ => Lt
  | _ :: _, [] => Gt
  | x :: xs', y :: ys' =>
      match N.compare x y with
      | Eq => lex_compare xs' ys'
      | c => c
      end
  end.

(** [datetime._cmp] *)
Definition dt_cmp (a b : datetime) : comparison :=
  lex_compare (dt_fields a) (dt_fields b).

(** [a < b], [a <= b], [a > b], [a >= b], [a == b] on datetimes. *)
Definition dt_ltb (a b : datetime) : bool :=
  match dt_cmp a b with Lt => true | _ => false end.
Definition dt_leb (a b : datetime) : bool :=
  match dt_cmp a b with Gt => false | _ => true end.
Definition dt_gtb (a b : datetime) : bool :=
  match dt_cmp a b with Gt => true | _ => false end.
Definition dt_geb (a b : datetime) : bool :=
  match dt_cmp a b with Lt => false | _ => true end.

(** *** Rendering: [datetime.isoformat] and [str(datetime)] *)

Definition decimal (n : N) : string := NilEmpty.string_of_uint (N.to_uint n).

Fixpoint zeros (k : nat) : string :=
  match k with
  | O => EmptyString
  | S k' => String "0"%char (zeros k')
  end.

(** [%0wd] for a non-negative number. *)
Definition zfill (w : nat) (n : N) : string :=
  let s := decimal n in zeros (w - String.length s) +:+ s.

Definition format_date (d : datetime) : string :=
  zfill 4 (year d) +:+ "-" +:+ zfill 2 (month d) +:+ "-" +:+ zfill 2 (day d).

Definition format_time (d : datetime) : string :=
  zfill 2 (hour d) +:+ ":" +:+ zfill 2 (minute d) +:+ ":" +:+ zfill 2 (second d)
  +:+ (if N.eqb (microsecond d) 0 then EmptyString
       else "." +:+ zfill 6 (microsecond d)).

Definition isoformat_sep (sep : string) (d : datetime) : string :=
  format_date d +:+ sep +:+ format_time d.

Definition isoformat (d : datetime) : string := isoformat_sep "T" d.

(** [str(d)], what an f-string interpolates, is [d.isoformat(sep=' ')]. *)
Definition str_datetime (d : datetime) : string := isoformat_sep " " d.

(** ** repr of a list of strings

    [f"{[c.id for c in conflicts]}"] interpolates [repr] of a list of
    [str].  [repr] of a [str] picks double quotes when the text holds a
    single quote and no double quote, escapes the backslash, the chosen
    quote, tab, newline and carriage return, and writes the other ASCII
    control characters as [\xhh].  Strings are byte strings here: bytes
    above 127 (UTF-8 of printable text) are kept. *)

Definition dquote : ascii := ascii_of_nat 34.
Definition squote : ascii := ascii_of_nat 39.
Definition backslash : ascii := ascii_of_nat 92.

Fixpoint contains_char (c : ascii) (s : string) : bool :=
  match s with
  | EmptyString => false
  | String a s' => Ascii.eqb a c || contains_char c s'
  end.

Definition hex_digit (n : nat) : ascii :=
  match n with
  | 0 => "0" | 1 => "1" | 2 => "2" | 3 => "3" | 4 => "4" | 5 => "5"
  | 6 => "6" | 7 => "7" | 8 => "8" | 9 => "9" | 10 => "a" | 11 => "b"
  | 12 => "c" | 13 => "d" | 14 => "e" | _ => "f"
  end%char.

Definition escape_char (quote c : ascii) : string :=
  let n := nat_of_ascii c in
  if Ascii.eqb c quote || Ascii.eqb c backslash then String backslash (String c EmptyString)
  else if Nat.eqb n 9 then String backslash "t"
  else if Nat.eqb n 10 then String backslash "n"
  else if Nat.eqb n 13 then String backslash "r"
  else if Nat.ltb n 32 || Nat.eqb n 127 then
    String backslash (String "x"%char
      (String (hex_digit (n / 16)) (String (hex_digit (n mod 16)) EmptyString)))
  else String c EmptyString.

Fixpoint escape (quote : ascii) (s : string) : string :=
  match s with
  | EmptyString => EmptyString
  | String c s' => escape_char quote c +:+ escape quote s'
  end.

Definition repr_str (s : string) : string :=
  let quote :=
    if contains_char squote s && negb (contains_char dquote s) then dquote else squote in
  String quote (escape quote s +:+ String quote EmptyString).

Fixpoint join (sep : string) (l : list string) : string :=
  match l with
  | [] => EmptyString
  | [s] => s
  | s :: l' => s +:+ sep +:+ join sep l'
  end.

Definition repr_list (l : list string) : string :=
  "[" +:+ join ", " (map repr_str l) +:+ "]".

(** ** Enumerations *)

Inductive BookingStatus := PENDING | APPROVED | DENIED | CANCELLED | BUMPED.
Inductive UserRole := STAFF | USER | ADMIN.
Inductive ActionType := CREATE | APPROVE | DENY | RESCHEDULE | OVERRIDE | BUMP | CANCEL.

#[global] Instance BookingStatus_eq_dec : EqDecision BookingStatus.
Proof. solve_decision. Defined.
#[global] Instance UserRole_eq_dec : EqDecision UserRole.
Proof. solve_decision. Defined.
#[global] Instance ActionType_eq_dec : EqDecision ActionType.
Proof. solve_decision. Defined.

(** [BookingStatus.value] *)
Definition status_value (s : BookingStatus) : string :=
  match s with
  | PENDING => "pending"
  | APPROVED => "approved"
  | DENIED => "denied"
  | CANCELLED => "cancelled"
  | BUMPED => "bumped"
  end.

(** ** Records *)

Record User := mk_User {
  user_id : string;
  user_name : string;
  user_role : UserRole
}.

Record Resource := mk_Resource {
  resource_id : string;
  resource_name : string;
  resource_type : string;
  capacity : Z
}.

Record Booking := mk_Booking {
  booking_id : string;
  resource : Resource;
  requester : User;
  start_time : datetime;
  end_time : datetime;
  status : BookingStatus;
  purpose : string;
  priority : Z;
  created_at : datetime
}.

(** A reference to a [Booking] object. *)
Definition loc := nat.

Record AuditLogEntry := mk_AuditLogEntry {
  entry_id : string;
  timestamp : datetime;
  action : ActionType;
  actor : User;
  booking : loc;
  details : string;
  previous_state : option (gmap string string)
}.

(** Attribute assignment on a booking. *)
Definition with_status (b : Booking) (s : BookingStatus) : Booking :=
  mk_Booking (booking_id b) (resource b) (requester b) (start_time b) (end_time b)
             s (purpose b) (priority b) (created_at b).
Definition with_start_time (b : Booking) (t : datetime) : Booking :=
  mk_Booking (booking_id b) (resource b) (requester b) t (end_time b)
             (status b) (purpose b) (priority b) (created_at b).
Definition with_end_time (b : Booking) (t : datetime) : Booking :=
  mk_Booking (booking_id b) (resource b) (requester b) (start_time b) t
             (status b) (purpose b) (priority b) (created_at b).

(** ** State, exceptions and the monad of methods *)

Record State := mk_State {
  heap : loc -> Booking;              (* the Booking objects, by reference *)
  next_loc : loc;                     (* the next fresh reference *)
  bookings : list loc;                (* self.bookings *)
  audit_log : list AuditLogEntry;     (* self.audit_log *)
  resources : gmap string Resource;   (* self.resources *)
  users : gmap string User            (* self.users *)
}.

Inductive Exception :=
| PermissionError (msg : string)
| ValueError (msg : string)
| TypeError (msg : string).

Inductive Outcome (A : Type) :=
| Return (v : A)
| Raise (e : Exception).
Arguments Return {A} v.
Arguments Raise {A} e.

Definition Py (A : Type) : Type := State -> Outcome A * State.

#[global] Instance Py_ret : MRet Py := fun A v st => (Return v, st).
#[global] Instance Py_bind : MBind Py := fun A B f m st =>
  match m st with
  | (Return v, st') => f v st'
  | (Raise e, st') => (Raise e, st')
  end.

Definition raise {A} (e : Exception) : Py A := fun st => (Raise e, st).
Definition gets {A} (f : State -> A) : Py A := fun st => (Return (f st), st).
Definition modify (f : State -> State) : Py unit := fun st => (Return tt, f st).

Definition set_heap (h : loc -> Booking) (st : State) : State :=
  mk_State h (next_loc st) (bookings st) (audit_log st) (resources st) (users st).

(** Reading and writing the attributes of the object behind a reference. *)
Definition deref (l : loc) : Py Booking := gets (fun st => heap st l).
Definition update (l : loc) (f : Booking -> Booking) : Py unit :=
  modify (fun st => set_heap (<[l := f (heap st l)]> (heap st)) st).
Definition set_status (l : loc) (s : BookingStatus) : Py unit :=
  update l (fun b => with_status b s).
Definition set_start_time (l : loc) (t : datetime) : Py unit :=
  update l (fun b => with_start_time b t).
Definition set_end_time (l : loc) (t : datetime) : Py unit :=
  update l (fun b => with_end_time b t).

(** A new object: the next fresh reference. *)
Definition alloc (b : Booking) : Py loc := fun st =>
  (Return (next_loc st),
   mk_State (<[next_loc st := b]> (heap st)) (S (next_loc st))
            (bookings st) (audit_log st) (resources st) (users st)).

(** [uuid.uuid4()] and [datetime.now()] are not functions of the state: the
    values one call site obtains are arguments of the method. *)
Record Fresh := mk_Fresh { uuid4 : string; now : datetime }.

(** [if not self.id: self.id = str(uuid.uuid4())] *)
Definition default_id (given : string) (w : Fresh) : string :=
  if String.eqb given EmptyString then uuid4 w else given.

(** ** Booking *)

(** [Booking(...)]: the dataclass constructor followed by [__post_init__].
    [status] takes its default and [created_at] its default factory
    [datetime.now].  When [__post_init__] raises, the object under
    construction is unreachable, so the store records no allocation. *)
Definition Booking_init (id : string) (resource : Resource) (requester : User)
    (start_time end_time : datetime) (purpose : string) (priority : Z)
    (w : Fresh) : Py loc :=
  if dt_leb end_time start_time then
    raise (ValueError "End time must be after start time")
  else
    alloc (mk_Booking (default_id id w) resource requester start_time end_time
                      PENDING purpose priority (now w)).

(** [Booking.overlaps_with] *)
Definition overlaps_with (self other : Booking) : bool :=
  String.eqb (resource_id (resource self)) (resource_id (resource other))
  && dt_ltb (start_time self) (end_time other)
  && dt_gtb (end_time self) (start_time other).

(** ** RangeBookingAutomation *)

(** [RangeBookingAutomation()] over a store [h] whose references below [n]
    are taken. *)
Definition init_system (h : loc -> Booking) (n : loc) : State :=
  mk_State h n [] [] ∅ ∅.

Definition register_resource (r : Resource) : Py unit :=
  modify (fun st => mk_State (heap st) (next_loc st) (bookings st) (audit_log st)
                             (<[resource_id r := r]> (resources st)) (users st)).

Definition register_user (u : User) : Py unit :=
  modify (fun st => mk_State (heap st) (next_loc st) (bookings st) (audit_log st)
                             (resources st) (<[user_id u := u]> (users st))).

(** [_is_staff_or_admin] *)
Definition _is_staff_or_admin (user : User) : bool :=
  bool_decide (user_role user ∈ [STAFF; ADMIN]).

(** [_add_audit_log]: [self.audit_log.append(entry)] *)
Definition _add_audit_log (action : ActionType) (actor : User) (booking : loc)
    (details : string) (previous_state : option (gmap string string))
    (w : Fresh) : Py unit :=
  let entry := mk_AuditLogEntry (default_id EmptyString w) (now w) action actor
                                booking details previous_state in
  modify (fun st => mk_State (heap st) (next_loc st) (bookings st)
                             (audit_log st ++ [entry]) (resources st) (users st)).

(** [self.bookings.append(booking)] *)
Definition append_booking (booking : loc) : Py unit :=
  modify (fun st => mk_State (heap st) (next_loc st) (bookings st ++ [booking])
                             (audit_log st) (resources st) (users st)).

(** [create_booking_request]; [wb] feeds the new booking, [w] the audit
    entry. *)
Definition create_booking_request (resource : Resource) (requester : User)
    (start_time end_time : datetime) (purpose : string) (priority : Z)
    (wb w : Fresh) : Py loc :=
  booking ← Booking_init EmptyString resource requester start_time end_time
                         purpose priority wb;
  append_booking booking;;
  _add_audit_log CREATE requester booking
    ("Booking request created for " +:+ resource_name resource) None w;;
  mret booking.

(** The condition of the loop of [check_conflicts], on the objects. *)
Definition conflicts_with (booking existing : Booking) : bool :=
  negb (String.eqb (booking_id existing) (booking_id booking))
  && bool_decide (status existing = APPROVED)
  && overlaps_with booking existing.

(** [check_conflicts]: the loop appends to [conflicts]. *)
Definition check_conflicts (booking : loc) : Py (list loc) :=
  gets (fun st =>
    fold_left
      (fun conflicts existing =>
         if conflicts_with (heap st booking) (heap st existing)
         then conflicts ++ [existing] else conflicts)
      (bookings st) []).

(** Truth value of a list: non-empty. *)
Definition truthy {A} (l : list A) : bool :=
  match l with [] => false | _ :: _ => true end.

(** [[c.id for c in conflicts]] *)
Definition ids_of (conflicts : list loc) : Py (list string) :=
  gets (fun st => map (fun c => booking_id (heap st c)) conflicts).

(** [approve_booking] *)
Definition approve_booking (booking : loc) (approver : User)
    (force_override : bool) (w : Fresh) : Py bool :=
  if negb (_is_staff_or_admin approver) then
    raise (PermissionError "Only staff or admin can approve bookings")
  else
    conflicts ← check_conflicts booking;
    if truthy conflicts && negb force_override then
      ids ← ids_of conflicts;
      let details := "Cannot approve due to conflicts with bookings: " +:+ repr_list ids in
      _add_audit_log APPROVE approver booking details None w;;
      mret false
    else
      b ← deref booking;
      let previous_state : gmap string string :=
        {[ "status" := status_value (status b) ]} in
      set_status booking APPROVED;;
      if force_override && truthy conflicts then
        ids ← ids_of conflicts;
        let details :=
          "Booking approved with override (conflicts: " +:+ repr_list ids +:+ ")" in
        _add_audit_log OVERRIDE approver booking details (Some previous_state) w;;
        mret true
      else
        _add_audit_log APPROVE approver booking "Booking approved"
                       (Some previous_state) w;;
        mret true.

(** [deny_booking] *)
Definition deny_booking (booking : loc) (denier : User) (reason : string)
    (w : Fresh) : Py unit :=
  if negb (_is_staff_or_admin denier) then
    raise (PermissionError "Only staff or admin can deny bookings")
  else
    b ← deref booking;
    let previous_state : gmap string string :=
      {[ "status" := status_value (status b) ]} in
    set_status booking DENIED;;
    _add_audit_log DENY denier booking ("Booking denied. Reason: " +:+ reason)
                   (Some previous_state) w.

(** [reschedule_booking] on naive datetimes, where no comparison raises;
    [Aware.reschedule_booking] is the method on datetimes with a time
    zone, where the scan can raise between the two writes of the times and
    the writes that restore them. *)
Definition reschedule_booking (booking : loc) (rescheduler : User)
    (new_start_time new_end_time : datetime) (force_override : bool)
    (w : Fresh) : Py bool :=
  if negb (_is_staff_or_admin rescheduler) then
    raise (PermissionError "Only staff or admin can reschedule bookings")
  else if dt_leb new_end_time new_start_time then
    raise (ValueError "End time must be after start time")
  else
    b ← deref booking;
    let previous_state : gmap string string :=
      {[ "start_time" := isoformat (start_time b);
         "end_time" := isoformat (end_time b);
         "status" := status_value (status b) ]} in
    let old_start := start_time b in
    let old_end := end_time b in
    set_start_time booking new_start_time;;
    set_end_time booking new_end_time;;
    conflicts ← check_conflicts booking;
    if truthy conflicts && negb force_override then
      set_start_time booking old_start;;
      set_end_time booking old_end;;
      ids ← ids_of conflicts;
      let details :=
        "Cannot reschedule due to conflicts with bookings: " +:+ repr_list ids in
      _add_audit_log RESCHEDULE rescheduler booking details None w;;
      mret false
    else
      set_status booking APPROVED;;
      ids ← ids_of conflicts;
      let details := "Booking rescheduled from " +:+ str_datetime old_start
                     +:+ " to " +:+ str_datetime new_start_time in
      let details :=
        if force_override && truthy conflicts
        then details +:+ " (overriding conflicts: " +:+ repr_list ids +:+ ")"
        else details in
      _add_audit_log RESCHEDULE rescheduler booking details (Some previous_state) w;;
      mret true.

(** [bump_booking] *)
Definition bump_booking (booking_to_bump : loc) (bumper : User)
    (higher_priority_booking : loc) (reason : string) (w : Fresh) : Py unit :=
  if negb (_is_staff_or_admin bumper) then
    raise (PermissionError "Only staff or admin can bump bookings")
  else
    b ← deref booking_to_bump;
    let previous_state : gmap string string :=
      {[ "status" := status_value (status b) ]} in
    set_status booking_to_bump BUMPED;;
    h ← deref higher_priority_booking;
    let details := "Booking bumped for higher priority booking " +:+ booking_id h
                   +:+ ". Reason: " +:+ reason in
    _add_audit_log BUMP bumper booking_to_bump details (Some previous_state) w.

(** [cancel_booking] *)
Definition cancel_booking (booking : loc) (canceller : User) (reason : string)
    (w : Fresh) : Py unit :=
  b ← deref booking;
  if negb (String.eqb (user_id (requester b)) (user_id canceller))
     && negb (_is_staff_or_admin canceller) then
    raise (PermissionError "Only the requester or staff can cancel a booking")
  else
    let previous_state : gmap string string :=
      {[ "status" := status_value (status b) ]} in
    set_status booking CANCELLED;;
    _add_audit_log CANCEL canceller booking ("Booking cancelled. Reason: " +:+ reason)
                   (Some previous_state) w.

(** Python's built-in [sorted(l, key=...)]: a stable sort that compares keys
    with [<].  Modelled as insertion sort; an element goes after exactly the
    elements whose key is strictly smaller. *)
Fixpoint insert_by {A} (key : A -> datetime) (x : A) (l : list A) : list A :=
  match l with
  | [] => [x]
  | y :: l' => if dt_ltb (key y) (key x) then y :: insert_by key x l' else x :: l
  end.

Fixpoint sorted {A} (key : A -> datetime) (l : list A) : list A :=
  match l with
  | [] => []
  | x :: l' => insert_by key x (sorted key l')
  end.

(** [get_bookings_by_resource].  An optional argument is applied when it is
    truthy: a [datetime] and an enumeration member always are. *)
Definition get_bookings_by_resource (resource_id_ : string)
    (start_date end_date : option datetime) (status_ : option BookingStatus)
    : Py (list loc) :=
  gets (fun st =>
    let bookings :=
      List.filter (fun b => String.eqb (resource_id (resource (heap st b))) resource_id_)
                  (bookings st) in
    let bookings :=
      match start_date with
      | Some sd => List.filter (fun b => dt_geb (end_time (heap st b)) sd) bookings
      | None => bookings
      end in
    let bookings :=
      match end_date with
      | Some ed => List.filter (fun b => dt_leb (start_time (heap st b)) ed) bookings
      | None => bookings
      end in
    let bookings :=
      match status_ with
      | Some s => List.filter (fun b => bool_decide (status (heap st b) = s)) bookings
      | None => bookings
      end in
    sorted (fun b => start_time (heap st b)) bookings).

(** Truth value of a [str]: non-empty. *)
Definition str_truthy (s : string) : bool := negb (String.eqb s EmptyString).

(** [get_audit_trail].  [if booking_id:] holds for a non-empty string only;
    [e.booking.id] is read through the reference the entry holds.  With no
    filter the source returns [self.audit_log] itself; the list is a value
    here. *)
Definition get_audit_trail (booking_id_ : option string)
    (start_date end_date : option datetime) : Py (list AuditLogEntry) :=
  gets (fun st =>
    let entries := audit_log st in
    let entries :=
      match booking_id_ with
      | Some i =>
          if str_truthy i
          then List.filter (fun e => String.eqb (booking_id (heap st (booking e))) i)
                           entries
          else entries
      | None => entries
      end in
    let entries :=
      match start_date with
      | Some sd => List.filter (fun e => dt_geb (timestamp e) sd) entries
      | None => entries
      end in
    let entries :=
      match end_date with
      | Some ed => List.filter (fun e => dt_leb (timestamp e) ed) entries
      | None => entries
      end in
    entries).

(** ** Running a method *)

Definition exec {A} (m : Py A) (st : State) : State := snd (m st).
Definition outcome {A} (m : Py A) (st : State) : Outcome A := fst (m st).

(** The state with one more audit entry, and with one object replaced. *)
Definition log (st : State) (e : AuditLogEntry) : State :=
  mk_State (heap st) (next_loc st) (bookings st) (audit_log st ++ [e])
           (resources st) (users st).
Definition store (st : State) (l : loc) (b : Booking) : State :=
  set_heap (<[l := b]> (heap st)) st.

(** ** Vocabulary of the specification *)

(** The conflict relation in the words of the specification: another
    booking (by id) on the same resource, APPROVED, whose interval overlaps
    the candidate's as half-open intervals. *)
Definition conflicting (candidate other : Booking) : Prop :=
  booking_id other <> booking_id candidate
  /\ resource_id (resource other) = resource_id (resource candidate)
  /\ status other = APPROVED
  /\ dt_ltb (start_time candidate) (end_time other) = true
  /\ dt_gtb (end_time candidate) (start_time other) = true.

(** Some booking of the collection conflicts with the candidate object. *)
Definition has_conflict (st : State) (candidate : Booking) : Prop :=
  exists e, e ∈ bookings st /\ conflicting candidate (heap st e).

(** The conflicts of a candidate object against the collection. *)
Definition conflicts_for (st : State) (candidate : Booking) : list loc :=
  List.filter (fun e => conflicts_with candidate (heap st e)) (bookings st).

(** [[c.id for c in conflicts]] read in a given state. *)
Definition conflict_ids (st : State) (conflicts : list loc) : list string :=
  map (fun c => booking_id (heap st c)) conflicts.

(** The actor may take staff actions: the role is STAFF or ADMIN. *)
Definition authorized (u : User) : Prop :=
  user_role u = STAFF \/ user_role u = ADMIN.

(** [entry.previous_state["status"]], when the entry has a previous state
    with that key. *)
Definition previous_status (e : AuditLogEntry) : option string :=
  d ← previous_state e; d !! "status".


(** All objects and the collection are as before. *)
Definition same_bookings (st st' : State) : Prop :=
  bookings st' = bookings st /\ forall l, heap st' l = heap st l.

(** Exactly the entry [e] was appended to the audit log. *)
Definition appended (st st' : State) (e : AuditLogEntry) : Prop :=
  audit_log st' = audit_log st ++ [e].

(** What a call with fresh values [w] does to the audit log: the old log is
    a prefix of the new one, and a call that returns has appended exactly
    one entry, stamped with the time of the call. *)
Definition audit_step {A} (w : Fresh) (st : State) (r : Outcome A * State) : Prop :=
  audit_log st `prefix_of` audit_log (snd r)
  /\ forall v, fst r = Return v ->
       exists e, appended st (snd r) e /\ timestamp e = now w.

(** Two distinct APPROVED bookings of the collection on one resource whose
    intervals overlap. *)
Definition double_booked (st : State) : Prop :=
  exists a b, a ∈ bookings st /\ b ∈ bookings st /\ a <> b
    /\ status (heap st a) = APPROVED /\ status (heap st b) = APPROVED
    /\ overlaps_with (heap st a) (heap st b) = true.


(** Unfolds the monad and the primitive reads and writes, leaving
    [check_conflicts] in place. *)
Ltac py_unfold :=
  unfold mbind, Py_bind, mret, Py_ret, raise, deref, ids_of, gets,
    set_status, set_start_time, set_end_time, update, _add_audit_log,
    append_booking, modify;
  cbv beta iota zeta.

(** The fields no method assigns after construction. *)
Definition same_identity (b b' : Booking) : Prop :=
  booking_id b' = booking_id b /\ resource b' = resource b
  /\ requester b' = requester b /\ purpose b' = purpose b
  /\ priority b' = priority b /\ created_at b' = created_at b.

(** Every booking of the collection ends after it starts. *)
Definition valid_intervals (st : State) : Prop :=
  forall l, l ∈ bookings st ->
    dt_gtb (end_time (heap st l)) (start_time (heap st l)) = true.

(** No APPROVED booking of the collection has a conflict in the
    collection. *)
Definition conflict_free (st : State) : Prop :=
  forall a, a ∈ bookings st -> status (heap st a) = APPROVED ->
    ~ has_conflict st (heap st a).

(** The audit log is ascending in its timestamps. *)
Definition log_sorted (st : State) : Prop :=
  StronglySorted (fun a b => dt_leb (timestamp a) (timestamp b) = true)
                 (audit_log st).

(** ** Clients

    A client is a sequence of calls of the workflow methods; a call that
    raises leaves the state it reached, and the client goes on. *)
Inductive Call :=
| CreateBookingRequest (resource : Resource) (requester : User)
    (start_time end_time : datetime) (purpose : string) (priority : Z) (wb w : Fresh)
| ApproveBooking (booking : loc) (approver : User) (force_override : bool) (w : Fresh)
| DenyBooking (booking : loc) (denier : User) (reason : string) (w : Fresh)
| RescheduleBooking (booking : loc) (rescheduler : User)
    (new_start_time new_end_time : datetime) (force_override : bool) (w : Fresh)
| BumpBooking (booking_to_bump : loc) (bumper : User) (higher_priority_booking : loc)
    (reason : string) (w : Fresh)
| CancelBooking (booking : loc) (canceller : User) (reason : string) (w : Fresh).

Definition call (c : Call) (st : State) : State :=
  match c with
  | CreateBookingRequest res req s e purp prio wb w =>
      exec (create_booking_request res req s e purp prio wb w) st
  | ApproveBooking l who force w => exec (approve_booking l who force w) st
  | DenyBooking l who reason w => exec (deny_booking l who reason w) st
  | RescheduleBooking l who ns ne force w =>
      exec (reschedule_booking l who ns ne force w) st
  | BumpBooking l who higher reason w => exec (bump_booking l who higher reason w) st
  | CancelBooking l who reason w => exec (cancel_booking l who reason w) st
  end.

Definition session (cs : list Call) (st : State) : State :=
  fold_left (fun st c => call c st) cs st.

(** The call asks for [force_override]. *)
Definition overrides (c : Call) : bool :=
  match c with
  | ApproveBooking _ _ force _ => force
  | RescheduleBooking _ _ _ _ force _ => force
  | _ => false
  end.

(** The [datetime.now()] that stamps the call's audit entry. *)
Definition call_now (c : Call) : datetime :=
  match c with
  | CreateBookingRequest _ _ _ _ _ _ _ w => now w
  | ApproveBooking _ _ _ w => now w
  | DenyBooking _ _ _ w => now w
  | RescheduleBooking _ _ _ _ _ w => now w
  | BumpBooking _ _ _ _ w => now w
  | CancelBooking _ _ _ w => now w
  end.

(** ** What a call may write *)

(** [st'] is [st] with the object behind [l] replaced by [b'] and possibly a
    longer audit log. *)
Definition updates (st st' : State) (l : loc) (b' : Booking) : Prop :=
  next_loc st' = next_loc st /\ bookings st' = bookings st
  /\ resources st' = resources st /\ users st' = users st
  /\ heap st' l = b' /\ forall l', l' <> l -> heap st' l' = heap st l'.

(** The new object [b'] for the old [b]: the identity fields are kept; the
    interval is kept or is a valid one; either nothing changed, or the new
    status is not APPROVED, or (without override) the new object has no
    conflict; and the status is kept or is not PENDING. *)
Definition write_ok (force : bool) (st : State) (b b' : Booking) : Prop :=
  same_identity b b'
  /\ (start_time b' = start_time b /\ end_time b' = end_time b
      \/ dt_gtb (end_time b') (start_time b') = true)
  /\ (b' = b \/ status b' <> APPROVED \/ (force = false -> ~ has_conflict st b'))
  /\ (status b' = status b \/ status b' <> PENDING).

Definition step_shape (force : bool) (st st' : State) (l : loc) : Prop :=
  exists b', updates st st' l b' /\ write_ok force st (heap st l) b'.

(** The effect of a successful [create_booking_request] on the store and
    the collection. *)
Definition create_shape (st st' : State) : Prop :=
  exists b, status b = PENDING
    /\ dt_gtb (end_time b) (start_time b) = true
    /\ next_loc st' = S (next_loc st)
    /\ bookings st' = bookings st ++ [next_loc st]
    /\ resources st' = resources st /\ users st' = users st
    /\ heap st' (next_loc st) = b
    /\ forall l, l <> next_loc st -> heap st' l = heap st l.

(** What a call does to the audit log: nothing, or one entry for [l]
    stamped [t]. *)
Definition log_shape (t : datetime) (l : loc) (st st' : State) : Prop :=
  audit_log st' = audit_log st
  \/ exists e, appended st st' e /\ timestamp e = t /\ booking e = l.

(** The object a call is about; for a create, the reference it would
    allocate. *)
Definition target (c : Call) (st : State) : loc :=
  match c with
  | CreateBookingRequest _ _ _ _ _ _ _ _ => next_loc st
  | ApproveBooking l _ _ _ => l
  | DenyBooking l _ _ _ => l
  | RescheduleBooking l _ _ _ _ _ => l
  | BumpBooking l _ _ _ _ => l
  | CancelBooking l _ _ _ => l
  end.

Definition is_create (c : Call) : bool :=
  match c with CreateBookingRequest _ _ _ _ _ _ _ _ => true | _ => false end.

(** The ids of the bookings of the collection, in its order. *)
Definition booking_ids (st : State) : list string :=
  map (fun l => booking_id (heap st l)) (bookings st).

(** The ids that [uuid.uuid4()] hands to the bookings the calls create. *)
Definition created_ids (cs : list Call) : list string :=
  flat_map (fun c => match c with
                     | CreateBookingRequest _ _ _ _ _ _ wb _ => [uuid4 wb]
                     | _ => []
                     end) cs.

(** Every reference of the collection has been allocated. *)
Definition allocated (st : State) : Prop :=
  Forall (fun l => l < next_loc st) (bookings st).

(** ** A scenario

    The end-to-end scenario of the specification: B1 on Bay 1 from 10:00 to
    12:00, approved; B2 on Bay 1 from 10:30 to 12:30, pending. *)

Definition at_time (h m : N) : datetime := mk_datetime 2024 1 15 h m 0 0.
Definition fresh (id : string) (m : N) : Fresh := mk_Fresh id (at_time 9 m).

Definition bay1 : Resource := mk_Resource "bay-001" "Bay 1" "bay" 1.
Definition alice : User := mk_User "user-001" "Alice" USER.
Definition carol : User := mk_User "user-002" "Carol" USER.
Definition bob : User := mk_User "staff-001" "Bob" STAFF.

Definition no_booking : Booking :=
  mk_Booking "none" (mk_Resource "none" "none" "bay" 1) (mk_User "none" "none" USER)
             (at_time 0 0) (at_time 0 1) PENDING EmptyString 0 (at_time 0 0).

Definition st_empty : State := init_system (fun _ => no_booking) 0.

Definition st_b1_pending : State :=
  exec (create_booking_request bay1 alice (at_time 10 0) (at_time 12 0)
          "practice" 1 (fresh "b1" 0) (fresh "e1" 0)) st_empty.

Definition st_b1_approved : State :=
  exec (approve_booking 0 bob false (fresh "e2" 1)) st_b1_pending.

Definition st_b1_denied : State :=
  exec (deny_booking 0 bob "range closed" (fresh "e2" 1)) st_b1_pending.

Definition st_b2_pending : State :=
  exec (create_booking_request bay1 carol (at_time 10 30) (at_time 12 30)
          "training" 0 (fresh "b2" 2) (fresh "e3" 2)) st_b1_approved.

(** The scenario as a client: create B1, approve it, create B2, try to
    approve it. *)
Definition demo_session : list Call :=
  [CreateBookingRequest bay1 alice (at_time 10 0) (at_time 12 0) "practice" 1
     (fresh "b1" 0) (fresh "e1" 0);
   ApproveBooking 0 bob false (fresh "e2" 1);
   CreateBookingRequest bay1 carol (at_time 10 30) (at_time 12 30) "training" 0
     (fresh "b2" 2) (fresh "e3" 2);
   ApproveBooking 1 bob false (fresh "e4" 3)].

(** * Datetimes with a time zone

    The [datetime] of the first part is the naive one.  A [datetime] object
    also carries a [tzinfo]; Python raises [TypeError] when a naive
    datetime is compared with an aware one, and [check_conflicts] makes
    such comparisons.  This part embeds the methods that compare the times
    of bookings on datetimes with a time zone, where they can leave by
    [TypeError], and relates them to the first part on naive values.

    A time zone is a fixed offset from UTC in whole seconds, as a
    [datetime.timezone] is (sub-second offsets and zones whose offset
    depends on the date are left out); [utcoffset] is [None] for a naive
    datetime. *)

Record tzdatetime := mk_tz { fields : datetime; utcoffset : option Z }.

Definition naive_dt (d : datetime) : tzdatetime := mk_tz d None.

Definition aware (d : tzdatetime) : bool :=
  match utcoffset d with Some _ => true | None => false end.

(** [_is_leap], [_days_before_year], [_days_before_month] and [toordinal]
    of the [datetime] module. *)
Definition is_leap (year : Z) : bool :=
  ((year mod 4 =? 0) && (negb (year mod 100 =? 0) || (year mod 400 =? 0)))%Z.

Definition days_before_year (year : Z) : Z :=
  (let y := year - 1 in y * 365 + y / 4 - y / 100 + y / 400)%Z.

Definition days_before_month (year month : Z) : Z :=
  (nth (Z.to_nat month)
       [-1; 0; 31; 59; 90; 120; 151; 181; 212; 243; 273; 304; 334] 0
   + (if (2 <? month) && is_leap year then 1 else 0))%Z.

Definition toordinal (d : datetime) : Z :=
  (days_before_year (Z.of_N (year d))
   + days_before_month (Z.of_N (year d)) (Z.of_N (month d))
   + Z.of_N (day d))%Z.

(** The microseconds of [d - offset] since ordinal 0: what the sign of
    [self - other] compares for two aware datetimes. *)
Definition instant (d : datetime) (offset : Z) : Z :=
  ((toordinal d * 86400
    + (Z.of_N (hour d) * 3600 + Z.of_N (minute d) * 60 + Z.of_N (second d))
    - offset) * 1000000
   + Z.of_N (microsecond d))%Z.

#[global] Instance Outcome_ret : MRet Outcome := fun A v => Return v.
#[global] Instance Outcome_bind : MBind Outcome := fun A B f m =>
  match m with
  | Return v => f v
  | Raise e => Raise e
  end.

(** [datetime._cmp]: equal offsets (both [None] too) compare the fields;
    one [None] raises; different offsets compare the instants. *)
Definition tz_cmp (a b : tzdatetime) : Outcome comparison :=
  match utcoffset a, utcoffset b with
  | None, None => Return (dt_cmp (fields a) (fields b))
  | Some oa, Some ob =>
      if Z.eqb oa ob then Return (dt_cmp (fields a) (fields b))
      else Return (Z.compare (instant (fields a) oa) (instant (fields b) ob))
  | _, _ => Raise (TypeError "can't compare offset-naive and offset-aware datetimes")
  end.

Definition tz_ltb (a b : tzdatetime) : Outcome bool :=
  c ← tz_cmp a b; mret (match c with Lt => true | _ => false end).
Definition tz_leb (a b : tzdatetime) : Outcome bool :=
  c ← tz_cmp a b; mret (match c with Gt => false | _ => true end).
Definition tz_gtb (a b : tzdatetime) : Outcome bool :=
  c ← tz_cmp a b; mret (match c with Gt => true | _ => false end).

(** [_format_offset]: [+HH:MM], with [:SS] when the seconds are not zero. *)
Definition format_offset (o : option Z) : string :=
  match o with
  | None => EmptyString
  | Some off =>
      let sign := if (off <? 0)%Z then "-" else "+" in
      let a := Z.to_N (Z.abs off) in
      sign +:+ zfill 2 (a / 3600) +:+ ":" +:+ zfill 2 ((a mod 3600) / 60)
      +:+ (if N.eqb (a mod 60) 0 then EmptyString else ":" +:+ zfill 2 (a mod 60))
  end%N.

Definition tz_isoformat (d : tzdatetime) : string :=
  isoformat (fields d) +:+ format_offset (utcoffset d).
Definition tz_str (d : tzdatetime) : string :=
  str_datetime (fields d) +:+ format_offset (utcoffset d).

(** A booking whose [start_time] and [end_time] have a [tzinfo]: the
    booking with the naive fields, and the two offsets. *)
Record TzBooking := mk_TzBooking {
  naive : Booking;
  start_offset : option Z;
  end_offset : option Z
}.

Definition tz_start_time (b : TzBooking) : tzdatetime :=
  mk_tz (start_time (naive b)) (start_offset b).
Definition tz_end_time (b : TzBooking) : tzdatetime :=
  mk_tz (end_time (naive b)) (end_offset b).

(** The state with time zones: [naive_state] is the state of the first part
    and holds the naive fields of every [start_time] and [end_time];
    [offsets l] holds the offsets of the [start_time] and the [end_time] of
    the object behind [l].  ([created_at] and the timestamps of the audit
    log come from [datetime.now()] and are naive.) *)
Record TzState := mk_TzState {
  naive_state : State;
  offsets : loc -> option Z * option Z
}.

(** The object behind a reference. *)
Definition view (g : TzState) (l : loc) : TzBooking :=
  mk_TzBooking (heap (naive_state g) l) (fst (offsets g l)) (snd (offsets g l)).

Definition TzPy (A : Type) : Type := TzState -> Outcome A * TzState.

#[global] Instance TzPy_ret : MRet TzPy := fun A v g => (Return v, g).
#[global] Instance TzPy_bind : MBind TzPy := fun A B f m g =>
  match m g with
  | (Return v, g') => f v g'
  | (Raise e, g') => (Raise e, g')
  end.

(** A step that does not read or write the offsets. *)
Definition lift {A} (m : Py A) : TzPy A := fun g =>
  let (r, st) := m (naive_state g) in (r, mk_TzState st (offsets g)).

(** A comparison inside a method: its exception leaves the state as it
    is at that point. *)
Definition eval {A} (o : Outcome A) : TzPy A := fun g => (o, g).

Definition tz_exec {A} (m : TzPy A) (g : TzState) : TzState := snd (m g).
Definition tz_outcome {A} (m : TzPy A) (g : TzState) : Outcome A := fst (m g).

Module Aware.

(** [Booking.overlaps_with]: [and] evaluates its operands from the left and
    stops at the first false one. *)
Definition overlaps_with (self other : TzBooking) : Outcome bool :=
  if String.eqb (resource_id (resource (naive self)))
                (resource_id (resource (naive other)))
  then
    c ← tz_ltb (tz_start_time self) (tz_end_time other);
    if (c : bool) then tz_gtb (tz_end_time self) (tz_start_time other)
    else mret false
  else mret false.

(** The condition of the loop of [check_conflicts]. *)
Definition conflicts_with (booking existing : TzBooking) : Outcome bool :=
  if negb (String.eqb (booking_id (naive existing)) (booking_id (naive booking)))
  then
    if bool_decide (status (naive existing) = APPROVED)
    then overlaps_with booking existing
    else mret false
  else mret false.

(** [check_conflicts]: an exception in the condition ends the loop. *)
Definition check_conflicts (booking : loc) : TzPy (list loc) := fun g =>
  (fold_left
     (fun acc existing =>
        conflicts ← acc;
        c ← conflicts_with (view g booking) (view g existing);
        mret (if (c : bool) then conflicts ++ [existing] else conflicts))
     (bookings (naive_state g)) (Return []),
   g).

(** [booking.start_time = t] and [booking.end_time = t]. *)
Definition set_start_time (l : loc) (t : tzdatetime) : TzPy unit := fun g =>
  (Return tt,
   mk_TzState (store (naive_state g) l
                 (with_start_time (heap (naive_state g) l) (fields t)))
              (<[l := (utcoffset t, snd (offsets g l))]> (offsets g))).
Definition set_end_time (l : loc) (t : tzdatetime) : TzPy unit := fun g =>
  (Return tt,
   mk_TzState (store (naive_state g) l
                 (with_end_time (heap (naive_state g) l) (fields t)))
              (<[l := (fst (offsets g l), utcoffset t)]> (offsets g))).

(** [Booking(...)] with [__post_init__]: the comparison of the two times
    comes before the object is reachable. *)
Definition Booking_init (id : string) (resource : Resource) (requester : User)
    (start_time end_time : tzdatetime) (purpose : string) (priority : Z)
    (w : Fresh) : TzPy loc :=
  c ← eval (tz_leb end_time start_time);
  if (c : bool) then lift (raise (ValueError "End time must be after start time"))
  else fun g =>
    let l := next_loc (naive_state g) in
    (Return l,
     mk_TzState
       (exec (alloc (mk_Booking (default_id id w) resource requester
                       (fields start_time) (fields end_time) PENDING purpose
                       priority (now w))) (naive_state g))
       (<[l := (utcoffset start_time, utcoffset end_time)]> (offsets g))).

(** [create_booking_request] *)
Definition create_booking_request (resource : Resource) (requester : User)
    (start_time end_time : tzdatetime) (purpose : string) (priority : Z)
    (wb w : Fresh) : TzPy loc :=
  booking ← Booking_init EmptyString resource requester start_time end_time
                         purpose priority wb;
  lift (append_booking booking);;
  lift (_add_audit_log CREATE requester booking
          ("Booking request created for " +:+ resource_name resource) None w);;
  mret booking.

(** [approve_booking] *)
Definition approve_booking (booking : loc) (approver : User)
    (force_override : bool) (w : Fresh) : TzPy bool :=
  if negb (_is_staff_or_admin approver) then
    lift (raise (PermissionError "Only staff or admin can approve bookings"))
  else
    conflicts ← check_conflicts booking;
    if truthy conflicts && negb force_override then
      ids ← lift (ids_of conflicts);
      let details := "Cannot approve due to conflicts with bookings: " +:+ repr_list ids in
      lift (_add_audit_log APPROVE approver booking details None w);;
      mret false
    else
      b ← lift (deref booking);
      let previous_state : gmap string string :=
        {[ "status" := status_value (status b) ]} in
      lift (set_status booking APPROVED);;
      if force_override && truthy conflicts then
        ids ← lift (ids_of conflicts);
        let details :=
          "Booking approved with override (conflicts: " +:+ repr_list ids +:+ ")" in
        lift (_add_audit_log OVERRIDE approver booking details (Some previous_state) w);;
        mret true
      else
        lift (_add_audit_log APPROVE approver booking "Booking approved"
                (Some previous_state) w);;
        mret true.

(** [deny_booking], [bump_booking] and [cancel_booking] neither read nor
    write a time. *)
Definition deny_booking (booking : loc) (denier : User) (reason : string)
    (w : Fresh) : TzPy unit :=
  lift (deny_booking booking denier reason w).

Definition bump_booking (booking_to_bump : loc) (bumper : User)
    (higher_priority_booking : loc) (reason : string) (w : Fresh) : TzPy unit :=
  lift (bump_booking booking_to_bump bumper higher_priority_booking reason w).

Definition cancel_booking (booking : loc) (canceller : User) (reason : string)
    (w : Fresh) : TzPy unit :=
  lift (cancel_booking booking canceller reason w).

(** [reschedule_booking]: the times are written before the scan, and
    written back only on the path that returns [False]. *)
Definition reschedule_booking (booking : loc) (rescheduler : User)
    (new_start_time new_end_time : tzdatetime) (force_override : bool)
    (w : Fresh) : TzPy bool :=
  if negb (_is_staff_or_admin rescheduler) then
    lift (raise (PermissionError "Only staff or admin can reschedule bookings"))
  else
    c ← eval (tz_leb new_end_time new_start_time);
    if (c : bool) then lift (raise (ValueError "End time must be after start time"))
    else
      b ← (fun g => (Return (view g booking), g));
      let previous_state : gmap string string :=
        {[ "start_time" := tz_isoformat (tz_start_time b);
           "end_time" := tz_isoformat (tz_end_time b);
           "status" := status_value (status (naive b)) ]} in
      let old_start := tz_start_time b in
      let old_end := tz_end_time b in
      set_start_time booking new_start_time;;
      set_end_time booking new_end_time;;
      conflicts ← check_conflicts booking;
      if truthy conflicts && negb force_override then
        set_start_time booking old_start;;
        set_end_time booking old_end;;
        ids ← lift (ids_of conflicts);
        let details :=
          "Cannot reschedule due to conflicts with bookings: " +:+ repr_list ids in
        lift (_add_audit_log RESCHEDULE rescheduler booking details None w);;
        mret false
      else
        lift (set_status booking APPROVED);;
        ids ← lift (ids_of conflicts);
        let details := "Booking rescheduled from " +:+ tz_str old_start
                       +:+ " to " +:+ tz_str new_start_time in
        let details :=
          if force_override && truthy conflicts
          then details +:+ " (overriding conflicts: " +:+ repr_list ids +:+ ")"
          else details in
        lift (_add_audit_log RESCHEDULE rescheduler booking details
                (Some previous_state) w);;
        mret true.

(** A client, as in the first part, with times that have a [tzinfo]. *)
Inductive Call :=
| CreateBookingRequest (resource : Resource) (requester : User)
    (start_time end_time : tzdatetime) (purpose : string) (priority : Z) (wb w : Fresh)
| ApproveBooking (booking : loc) (approver : User) (force_override : bool) (w : Fresh)
| DenyBooking (booking : loc) (denier : User) (reason : string) (w : Fresh)
| RescheduleBooking (booking : loc) (rescheduler : User)
    (new_start_time new_end_time : tzdatetime) (force_override : bool) (w : Fresh)
| BumpBooking (booking_to_bump : loc) (bumper : User) (higher_priority_booking : loc)
    (reason : string) (w : Fresh)
| CancelBooking (booking : loc) (canceller : User) (reason : string) (w : Fresh).

Definition call (c : Call) (g : TzState) : TzState :=
  match c with
  | CreateBookingRequest res req s e purp prio wb w =>
      tz_exec (create_booking_request res req s e purp prio wb w) g
  | ApproveBooking l who force w => tz_exec (approve_booking l who force w) g
  | DenyBooking l who reason w => tz_exec (deny_booking l who reason w) g
  | RescheduleBooking l who ns ne force w =>
      tz_exec (reschedule_booking l who ns ne force w) g
  | BumpBooking l who higher reason w => tz_exec (bump_booking l who higher reason w) g
  | CancelBooking l who reason w => tz_exec (cancel_booking l who reason w) g
  end.

Definition session (cs : list Call) (g : TzState) : TzState :=
  fold_left (fun g c => call c g) cs g.

Definition overrides (c : Call) : bool :=
  match c with
  | ApproveBooking _ _ force _ => force
  | RescheduleBooking _ _ _ _ force _ => force
  | _ => false
  end.

End Aware.

(** ** Vocabulary for datetimes with a time zone *)

(** The condition of [check_conflicts] with an exception read as false. *)
Definition conflicts_total (candidate other : TzBooking) : bool :=
  match Aware.conflicts_with candidate other with
  | Return c => c
  | Raise _ => false
  end.

(** The conflict relation of the specification on such bookings: both
    comparisons have a value, and it is true. *)
Definition tz_conflicting (candidate other : TzBooking) : Prop :=
  booking_id (naive other) <> booking_id (naive candidate)
  /\ resource_id (resource (naive other)) = resource_id (resource (naive candidate))
  /\ status (naive other) = APPROVED
  /\ tz_ltb (tz_start_time candidate) (tz_end_time other) = Return true
  /\ tz_gtb (tz_end_time candidate) (tz_start_time other) = Return true.

Definition tz_has_conflict (g : TzState) (candidate : TzBooking) : Prop :=
  exists e, e ∈ bookings (naive_state g) /\ tz_conflicting candidate (view g e).


(** Every time is naive. *)
Definition naive_offsets (g : TzState) : Prop :=
  forall l, offsets g l = (None, None).


(** Unfolds the monad of this part and the writes of the times. *)
Ltac tz_unfold :=
  unfold mbind, TzPy_bind, mret, TzPy_ret, eval, lift,
    Aware.set_start_time, Aware.set_end_time,
    raise, deref, ids_of, gets, set_status, update, _add_audit_log, modify;
  cbv beta iota zeta.

(** ** Clients whose datetimes are all naive *)

(** The call of the first part that a call with naive times is. *)
Definition strip (c : Aware.Call) : Call :=
  match c with
  | Aware.CreateBookingRequest res req s e purp prio wb w =>
      CreateBookingRequest res req (fields s) (fields e) purp prio wb w
  | Aware.ApproveBooking l who force w => ApproveBooking l who force w
  | Aware.DenyBooking l who reason w => DenyBooking l who reason w
  | Aware.RescheduleBooking l who ns ne force w =>
      RescheduleBooking l who (fields ns) (fields ne) force w
  | Aware.BumpBooking l who higher reason w => BumpBooking l who higher reason w
  | Aware.CancelBooking l who reason w => CancelBooking l who reason w
  end.

(** Every datetime the call passes is naive. *)
Definition naive_call (c : Aware.Call) : bool :=
  match c with
  | Aware.CreateBookingRequest _ _ s e _ _ _ _ => negb (aware s) && negb (aware e)
  | Aware.RescheduleBooking _ _ ns ne _ _ => negb (aware ns) && negb (aware ne)
  | _ => true
  end.

(** No APPROVED booking of the collection has a conflict in the
    collection. *)
Definition tz_conflict_free (g : TzState) : Prop :=
  forall a, a ∈ bookings (naive_state g) ->
    status (naive (view g a)) = APPROVED ->
    ~ tz_has_conflict g (view g a).

(** Two distinct APPROVED bookings of the collection that
    [Booking.overlaps_with] finds overlapping. *)
Definition tz_double_booked (g : TzState) : Prop :=
  exists a b, a ∈ bookings (naive_state g) /\ b ∈ bookings (naive_state g) /\ a <> b
    /\ status (naive (view g a)) = APPROVED /\ status (naive (view g b)) = APPROVED
    /\ Aware.overlaps_with (view g a) (view g b) = Return true.

(** On a state whose times are naive, the method [m] is the method [n] of
    the first part, and leaves every time naive. *)
Definition simulates {A} (m : TzPy A) (n : Py A) : Prop :=
  forall g, naive_offsets g ->
    tz_outcome m g = outcome n (naive_state g)
    /\ naive_state (tz_exec m g) = exec n (naive_state g)
    /\ naive_offsets (tz_exec m g).

(** ** The scenario with time zones *)

Definition utc (h m : N) : tzdatetime := mk_tz (at_time h m) (Some 0%Z).

(** [RangeBookingAutomation()] where every object of the store has naive
    times. *)
Definition tz_init_system (h : loc -> Booking) (n : loc) : TzState :=
  mk_TzState (init_system h n) (fun _ => (None, None)).

(** B1 from 10:00 to 12:00, approved; B2 from 10:30 to 12:30, pending: all
    times naive. *)
Definition tz_b2_pending : TzState :=
  Aware.session
    [Aware.CreateBookingRequest bay1 alice (naive_dt (at_time 10 0))
       (naive_dt (at_time 12 0)) "practice" 1 (fresh "b1" 0) (fresh "e1" 0);
     Aware.ApproveBooking 0 bob false (fresh "e2" 1);
     Aware.CreateBookingRequest bay1 carol (naive_dt (at_time 10 30))
       (naive_dt (at_time 12 30)) "training" 0 (fresh "b2" 2) (fresh "e3" 2)]
    (tz_init_system (fun _ => no_booking) 0).

(** The scenario as a client whose times are naive. *)
Definition tz_demo_session : list Aware.Call :=
  [Aware.CreateBookingRequest bay1 alice (naive_dt (at_time 10 0))
     (naive_dt (at_time 12 0)) "practice" 1 (fresh "b1" 0) (fresh "e1" 0);
   Aware.ApproveBooking 0 bob false (fresh "e2" 1);
   Aware.CreateBookingRequest bay1 carol (naive_dt (at_time 10 30))
     (naive_dt (at_time 12 30)) "training" 0 (fresh "b2" 2) (fresh "e3" 2);
   Aware.ApproveBooking 1 bob false (fresh "e4" 3)].

(** Three bookings with naive times on Bay 1, approved one by one without
    conflict (8:00-9:00, 10:00-11:00, 12:00-13:00); then staff moves the
    second to 14:00-15:00 UTC and the third to 14:30-15:30 UTC, never
    asking for [force_override]. *)
Definition tz_mixed_session : list Aware.Call :=
  [Aware.CreateBookingRequest bay1 alice (naive_dt (at_time 8 0))
     (naive_dt (at_time 9 0)) "zeroing" 0 (fresh "b0" 0) (fresh "e1" 0);
   Aware.ApproveBooking 0 bob false (fresh "e2" 1);
   Aware.CreateBookingRequest bay1 alice (naive_dt (at_time 10 0))
     (naive_dt (at_time 11 0)) "practice" 0 (fresh "b1" 2) (fresh "e3" 2);
   Aware.ApproveBooking 1 bob false (fresh "e4" 3);
   Aware.CreateBookingRequest bay1 carol (naive_dt (at_time 12 0))
     (naive_dt (at_time 13 0)) "training" 0 (fresh "b2" 4) (fresh "e5" 4);
   Aware.ApproveBooking 2 bob false (fresh "e6" 5);
   Aware.RescheduleBooking 1 bob (utc 14 0) (utc 15 0) false (fresh "e7" 6);
   Aware.RescheduleBooking 2 bob (utc 14 30) (utc 15 30) false (fresh "e8" 7)].

(** * Properties *)

(** ** The order on datetimes *)


Lemma lex_compare_refl xs : lex_compare xs xs = Eq.
Proof. induction xs as [|x xs IH]; simpl; [done|]. by rewrite N.compare_refl. Qed.

Lemma lex_compare_antisym xs ys : lex_compare ys xs = CompOpp (lex_compare xs ys).
Proof.
    revert ys. induction xs as [|x xs IH]; intros [|y ys]; simpl; try done.
    rewrite (N.compare_antisym x y).
    destruct (N.compare x y); simpl; auto.
Qed.


Lemma lex_compare_trans xs ys zs :
    lex_compare xs ys <> Gt -> lex_compare ys zs <> Gt -> lex_compare xs zs <> Gt.
Proof.
    revert ys zs. induction xs as [|x xs IH]; intros [|y ys] [|z zs]; simpl; try done.
    destruct (N.compare_spec x y), (N.compare_spec y z), (N.compare_spec x z);
      subst; try done; try lia; eauto.
Qed.




Lemma dt_gtb_ltb a b : dt_gtb a b = dt_ltb b a.
Proof.
  unfold dt_gtb, dt_ltb, dt_cmp.
  rewrite (lex_compare_antisym (dt_fields a) (dt_fields b)).
  by destruct (lex_compare _ _).
Qed.

Lemma dt_geb_leb a b : dt_geb a b = dt_leb b a.
Proof.
  unfold dt_geb, dt_leb, dt_cmp.
  rewrite (lex_compare_antisym (dt_fields a) (dt_fields b)).
  by destruct (lex_compare _ _).
Qed.

Lemma dt_leb_ltb a b : dt_leb a b = negb (dt_ltb b a).
Proof.
  unfold dt_leb, dt_ltb, dt_cmp.
  rewrite (lex_compare_antisym (dt_fields a) (dt_fields b)).
  by destruct (lex_compare _ _).
Qed.

Lemma dt_ltb_irrefl a : dt_ltb a a = false.
Proof. unfold dt_ltb, dt_cmp. by rewrite lex_compare_refl. Qed.

Lemma dt_ltb_leb a b : dt_ltb a b = true -> dt_leb a b = true.
Proof. unfold dt_ltb, dt_leb. by destruct (dt_cmp a b). Qed.

Lemma dt_leb_trans a b c : dt_leb a b = true -> dt_leb b c = true -> dt_leb a c = true.
Proof.
  unfold dt_leb, dt_cmp. intros H1 H2.
  pose proof (lex_compare_trans (dt_fields a) (dt_fields b) (dt_fields c)) as T.
  destruct (lex_compare (dt_fields a) (dt_fields b)),
           (lex_compare (dt_fields b) (dt_fields c)),
           (lex_compare (dt_fields a) (dt_fields c)); try done; exfalso; by apply T.
Qed.

(** ** [sorted]: a stable sort by key *)

Section Sorted.
Context {A : Type} (key : A -> datetime).

Lemma insert_by_perm x l : insert_by key x l ≡ₚ x :: l.
Proof.
  induction l as [|y l IH]; simpl; [done|].
  destruct (dt_ltb (key y) (key x)); [|done].
  rewrite IH. apply Permutation_swap.
Qed.

Lemma sorted_perm l : sorted key l ≡ₚ l.
Proof.
  induction l as [|x l IH]; simpl; [done|].
  by rewrite insert_by_perm, IH.
Qed.





End Sorted.

(** ** Conflict detection *)

Lemma conflicts_with_spec candidate other :
  conflicts_with candidate other = true <-> conflicting candidate other.
Proof.
  unfold conflicts_with, overlaps_with, conflicting.
  rewrite !andb_true_iff, negb_true_iff, bool_decide_eq_true.
  rewrite String.eqb_neq, String.eqb_eq. intuition congruence.
Qed.

Lemma check_conflicts_loop (p : loc -> bool) l acc :
  fold_left (fun conflicts existing =>
               if p existing then conflicts ++ [existing] else conflicts) l acc
  = acc ++ List.filter p l.
Proof.
  revert acc. induction l as [|x l IH]; intros acc; simpl.
  - by rewrite app_nil_r.
  - rewrite IH. destruct (p x); [|done]. by rewrite <- app_assoc.
Qed.

Lemma check_conflicts_run booking st :
  check_conflicts booking st = (Return (conflicts_for st (heap st booking)), st).
Proof.
  unfold check_conflicts, gets, conflicts_for.
  by rewrite (check_conflicts_loop
                (fun e => conflicts_with (heap st booking) (heap st e))).
Qed.

Lemma elem_of_conflicts_for st candidate e :
  e ∈ conflicts_for st candidate <->
  e ∈ bookings st /\ conflicting candidate (heap st e).
Proof.
  unfold conflicts_for.
  rewrite !list_elem_of_In, filter_In, conflicts_with_spec. done.
Qed.

Lemma truthy_conflicts_for st candidate :
  truthy (conflicts_for st candidate) = true <-> has_conflict st candidate.
Proof.
  unfold has_conflict. split.
  - destruct (conflicts_for st candidate) as [|e l] eqn:E; [done|].
    intros _. exists e. apply elem_of_conflicts_for. rewrite E. left.
  - intros (e & He). apply elem_of_conflicts_for in He.
    by destruct (conflicts_for st candidate); [inversion He|].
Qed.

Lemma falsy_conflicts_for st candidate :
  truthy (conflicts_for st candidate) = false <-> ~ has_conflict st candidate.
Proof.
  rewrite <- truthy_conflicts_for. by destruct (truthy _).
Qed.


(** ** The resource query *)

Lemma filter_andb {A} (p q : A -> bool) l :
  List.filter q (List.filter p l) = List.filter (fun x => p x && q x) l.
Proof.
  induction l as [|x l IH]; [done|]. simpl.
  destruct (p x); simpl; [|done]. destruct (q x); by rewrite IH.
Qed.

Lemma filter_true {A} (l : list A) : List.filter (fun _ => true) l = l.
Proof. induction l as [|x l IH]; [done|]. simpl. by rewrite IH. Qed.


(** ** Running the workflow methods *)

Lemma is_staff_or_admin_true u :
  _is_staff_or_admin u = true <-> user_role u = STAFF \/ user_role u = ADMIN.
Proof.
  unfold _is_staff_or_admin.
  destruct (user_role u); vm_compute; intuition discriminate.
Qed.

Lemma is_staff_or_admin_false u :
  _is_staff_or_admin u = false <-> user_role u <> STAFF /\ user_role u <> ADMIN.
Proof.
  unfold _is_staff_or_admin.
  destruct (user_role u); vm_compute; intuition discriminate.
Qed.

Lemma default_id_empty w : default_id EmptyString w = uuid4 w.
Proof. reflexivity. Qed.

Lemma conflict_ids_ext st st' cs :
  (forall e, booking_id (heap st' e) = booking_id (heap st e)) ->
  conflict_ids st' cs = conflict_ids st cs.
Proof. intros H. unfold conflict_ids. apply map_ext. intros e. apply H. Qed.

Lemma heap_store st l b l' :
  heap (store st l b) l' = if decide (l = l') then b else heap st l'.
Proof.
  unfold store, set_heap. simpl. destruct (decide (l = l')) as [->|Hne].
  - apply fn_lookup_insert.
  - by apply fn_lookup_insert_ne.
Qed.

Lemma with_status_same b : with_status b (status b) = b.
Proof. by destruct b. Qed.

Lemma heap_log st e l : heap (log st e) l = heap st l.
Proof. reflexivity. Qed.

Lemma approve_booking_unauthorized booking approver force w st :
  _is_staff_or_admin approver = false ->
  approve_booking booking approver force w st
  = (Raise (PermissionError "Only staff or admin can approve bookings"), st).
Proof. intros H. unfold approve_booking. rewrite H. reflexivity. Qed.

Lemma approve_booking_run booking approver force w st :
  _is_staff_or_admin approver = true ->
  let b := heap st booking in
  let conflicts := conflicts_for st b in
  let ids := conflict_ids st conflicts in
  approve_booking booking approver force w st =
  if truthy conflicts && negb force then
    (Return false,
     log st (mk_AuditLogEntry (uuid4 w) (now w) APPROVE approver booking
               ("Cannot approve due to conflicts with bookings: " +:+ repr_list ids)
               None))
  else
    (Return true,
     log (store st booking (with_status b APPROVED))
         (mk_AuditLogEntry (uuid4 w) (now w)
            (if force && truthy conflicts then OVERRIDE else APPROVE)
            approver booking
            (if force && truthy conflicts
             then "Booking approved with override (conflicts: " +:+ repr_list ids +:+ ")"
             else "Booking approved")
            (Some {[ "status" := status_value (status b) ]}))).
Proof.
  intros H b conflicts ids. unfold approve_booking. rewrite H. cbn [negb].
  py_unfold. rewrite check_conflicts_run. cbv beta iota zeta.
  fold b. fold conflicts.
  destruct (truthy conflicts && negb force); [reflexivity|].
  destruct (force && truthy conflicts); [|reflexivity].
  cbv beta iota zeta. rewrite default_id_empty. unfold log. simpl.
  do 4 f_equal.
  change (map _ conflicts) with
    (conflict_ids (store st booking (with_status b APPROVED)) conflicts).
  rewrite (conflict_ids_ext st); [done|].
  intros e. rewrite heap_store. by destruct (decide _) as [<-|].
Qed.

Lemma deny_booking_unauthorized booking denier reason w st :
  _is_staff_or_admin denier = false ->
  deny_booking booking denier reason w st
  = (Raise (PermissionError "Only staff or admin can deny bookings"), st).
Proof. intros H. unfold deny_booking. rewrite H. reflexivity. Qed.

Lemma deny_booking_run booking denier reason w st :
  _is_staff_or_admin denier = true ->
  let b := heap st booking in
  deny_booking booking denier reason w st =
  (Return tt,
   log (store st booking (with_status b DENIED))
       (mk_AuditLogEntry (uuid4 w) (now w) DENY denier booking
          ("Booking denied. Reason: " +:+ reason)
          (Some {[ "status" := status_value (status b) ]}))).
Proof. intros H b. unfold deny_booking. rewrite H. reflexivity. Qed.

Lemma bump_booking_unauthorized booking bumper higher reason w st :
  _is_staff_or_admin bumper = false ->
  bump_booking booking bumper higher reason w st
  = (Raise (PermissionError "Only staff or admin can bump bookings"), st).
Proof. intros H. unfold bump_booking. rewrite H. reflexivity. Qed.

Lemma bump_booking_run booking bumper higher reason w st :
  _is_staff_or_admin bumper = true ->
  let b := heap st booking in
  bump_booking booking bumper higher reason w st =
  (Return tt,
   log (store st booking (with_status b BUMPED))
       (mk_AuditLogEntry (uuid4 w) (now w) BUMP bumper booking
          ("Booking bumped for higher priority booking "
           +:+ booking_id (heap st higher) +:+ ". Reason: " +:+ reason)
          (Some {[ "status" := status_value (status b) ]}))).
Proof.
  intros H b. unfold bump_booking. rewrite H. cbn [negb].
  py_unfold. rewrite default_id_empty. unfold log. simpl.
  assert (booking_id (<[booking := with_status (heap st booking) BUMPED]> (heap st) higher)
          = booking_id (heap st higher)) as ->; [|reflexivity].
  destruct (decide (booking = higher)) as [->|Hne].
  - by rewrite fn_lookup_insert.
  - by rewrite fn_lookup_insert_ne.
Qed.

Lemma cancel_booking_unauthorized booking canceller reason w st :
  user_id (requester (heap st booking)) <> user_id canceller ->
  _is_staff_or_admin canceller = false ->
  cancel_booking booking canceller reason w st
  = (Raise (PermissionError "Only the requester or staff can cancel a booking"), st).
Proof.
  intros Hid H. unfold cancel_booking. py_unfold.
  apply String.eqb_neq in Hid. rewrite Hid, H. reflexivity.
Qed.

Lemma cancel_booking_run booking canceller reason w st :
  user_id (requester (heap st booking)) = user_id canceller
  \/ _is_staff_or_admin canceller = true ->
  let b := heap st booking in
  cancel_booking booking canceller reason w st =
  (Return tt,
   log (store st booking (with_status b CANCELLED))
       (mk_AuditLogEntry (uuid4 w) (now w) CANCEL canceller booking
          ("Booking cancelled. Reason: " +:+ reason)
          (Some {[ "status" := status_value (status b) ]}))).
Proof.
  intros H b. unfold cancel_booking. py_unfold. fold b.
  assert (negb (String.eqb (user_id (requester b)) (user_id canceller))
          && negb (_is_staff_or_admin canceller) = false) as ->; [|reflexivity].
  destruct H as [H|H].
  - apply String.eqb_eq in H. unfold b. by rewrite H.
  - rewrite H. apply andb_false_r.
Qed.

Lemma create_booking_request_invalid res req s e purp prio wb w st :
  dt_leb e s = true ->
  create_booking_request res req s e purp prio wb w st
  = (Raise (ValueError "End time must be after start time"), st).
Proof.
  intros H. unfold create_booking_request, Booking_init. rewrite H. reflexivity.
Qed.

Lemma create_booking_request_run res req s e purp prio wb w st :
  dt_leb e s = false ->
  let l := next_loc st in
  let b := mk_Booking (uuid4 wb) res req s e PENDING purp prio (now wb) in
  create_booking_request res req s e purp prio wb w st =
  (Return l,
   mk_State (<[l := b]> (heap st)) (S l) (bookings st ++ [l])
            (audit_log st ++
               [mk_AuditLogEntry (uuid4 w) (now w) CREATE req l
                  ("Booking request created for " +:+ resource_name res) None])
            (resources st) (users st)).
Proof.
  intros H l b. unfold create_booking_request, Booking_init. rewrite H. reflexivity.
Qed.

Lemma reschedule_booking_unauthorized booking who ns ne force w st :
  _is_staff_or_admin who = false ->
  reschedule_booking booking who ns ne force w st
  = (Raise (PermissionError "Only staff or admin can reschedule bookings"), st).
Proof. intros H. unfold reschedule_booking. rewrite H. reflexivity. Qed.

Lemma reschedule_booking_invalid booking who ns ne force w st :
  _is_staff_or_admin who = true ->
  dt_leb ne ns = true ->
  reschedule_booking booking who ns ne force w st
  = (Raise (ValueError "End time must be after start time"), st).
Proof. intros H1 H2. unfold reschedule_booking. rewrite H1, H2. reflexivity. Qed.

(** Writing the candidate's interval in place does not change what the scan
    finds: the only object written is excluded by its id. *)
Lemma conflicts_for_in_place st st' l candidate :
  bookings st' = bookings st ->
  (forall e, e <> l -> heap st' e = heap st e) ->
  booking_id (heap st l) = booking_id candidate ->
  booking_id (heap st' l) = booking_id candidate ->
  conflicts_for st' candidate = conflicts_for st candidate.
Proof.
  intros Hb Hh Hid Hid'. unfold conflicts_for. rewrite Hb.
  apply filter_ext. intros e. destruct (decide (e = l)) as [->|Hne].
  - unfold conflicts_with. by rewrite Hid, Hid', String.eqb_refl.
  - by rewrite Hh.
Qed.

Lemma with_times_restore b ns ne :
  with_end_time (with_start_time (with_end_time (with_start_time b ns) ne)
                                 (start_time b)) (end_time b) = b.
Proof. by destruct b. Qed.

Lemma reschedule_booking_run booking who ns ne force w st :
  _is_staff_or_admin who = true ->
  dt_leb ne ns = false ->
  let b := heap st booking in
  let candidate := with_end_time (with_start_time b ns) ne in
  let conflicts := conflicts_for st candidate in
  let ids := conflict_ids st conflicts in
  let blocked := truthy conflicts && negb force in
  let entry :=
    if blocked then
      mk_AuditLogEntry (uuid4 w) (now w) RESCHEDULE who booking
        ("Cannot reschedule due to conflicts with bookings: " +:+ repr_list ids) None
    else
      mk_AuditLogEntry (uuid4 w) (now w) RESCHEDULE who booking
        (let moved := "Booking rescheduled from " +:+ str_datetime (start_time b)
                      +:+ " to " +:+ str_datetime ns in
         if force && truthy conflicts
         then moved +:+ " (overriding conflicts: " +:+ repr_list ids +:+ ")"
         else moved)
        (Some {[ "start_time" := isoformat (start_time b);
                 "end_time" := isoformat (end_time b);
                 "status" := status_value (status b) ]}) in
  exists st',
    reschedule_booking booking who ns ne force w st = (Return (negb blocked), st')
    /\ next_loc st' = next_loc st /\ bookings st' = bookings st
    /\ resources st' = resources st /\ users st' = users st
    /\ (forall l, l <> booking -> heap st' l = heap st l)
    /\ heap st' booking = (if blocked then b else with_status candidate APPROVED)
    /\ audit_log st' = audit_log st ++ [entry].
Proof.
  intros H1 H2 b candidate conflicts ids blocked entry.
  unfold reschedule_booking. rewrite H1, H2. cbn [negb].
  py_unfold. rewrite check_conflicts_run. cbv beta iota zeta.
  set (st1 := set_heap _ (set_heap _ st)).
  assert (heap st1 booking = candidate) as Hc.
  { unfold st1, set_heap. simpl. by rewrite !fn_lookup_insert. }
  assert (forall e, e <> booking -> heap st1 e = heap st e) as Hother.
  { intros e He. unfold st1, set_heap. simpl. by rewrite !fn_lookup_insert_ne. }
  assert (forall e, booking_id (heap st1 e) = booking_id (heap st e)) as Hids.
  { intros e. destruct (decide (e = booking)) as [->|He]; [by rewrite Hc|by rewrite Hother]. }
  rewrite Hc.
  rewrite (conflicts_for_in_place st st1 booking candidate); [|done|done|done|by rewrite Hc].
  fold b conflicts. fold blocked. unfold entry.
  destruct blocked eqn:Hblocked.
  - eexists. split; [reflexivity|]. simpl. repeat split.
    + intros l Hl. by rewrite !fn_lookup_insert_ne.
    + rewrite !fn_lookup_insert. apply with_times_restore.
    + rewrite default_id_empty. do 5 f_equal. unfold ids, conflict_ids.
      apply map_ext. intros e. destruct (decide (e = booking)) as [->|He].
      * by rewrite !fn_lookup_insert.
      * by rewrite !fn_lookup_insert_ne.
  - eexists. split; [reflexivity|]. simpl. repeat split.
    + intros l Hl. by rewrite !fn_lookup_insert_ne.
    + rewrite !fn_lookup_insert. reflexivity.
    + rewrite default_id_empty.
      match goal with |- context [map ?f conflicts] =>
        assert (map f conflicts = ids) as ->; [|done] end.
      unfold ids, conflict_ids. apply map_ext. intros e.
      destruct (decide (e = booking)) as [->|He].
      * by rewrite !fn_lookup_insert.
      * by rewrite !fn_lookup_insert_ne.
Qed.

(** ** The approval claims *)

Lemma authorized_spec u : authorized u <-> _is_staff_or_admin u = true.
Proof. symmetry. apply is_staff_or_admin_true. Qed.

Lemma not_authorized_spec u : ~ authorized u <-> _is_staff_or_admin u = false.
Proof. rewrite authorized_spec. by destruct (_is_staff_or_admin u). Qed.


Lemma appended_log st e : appended st (log st e) e.
Proof. reflexivity. Qed.




(** C10: [approve_booking] leaves the collection as it is and writes at most
    the status of its target: every other object is unchanged.  After an
    authorized override, each conflicting booking is still APPROVED with
    its interval, the target is APPROVED, and the two overlap: the
    collection is double booked. *)
Theorem C10_approve_frame (st : State) (booking : loc) (approver : User)
    (force : bool) (w : Fresh) :
  let st' := exec (approve_booking booking approver force w) st in
  bookings st' = bookings st
  /\ (forall l, l <> booking -> heap st' l = heap st l)
  /\ (exists s, heap st' booking = with_status (heap st booking) s)
  /\ (authorized approver -> force = true -> booking ∈ bookings st ->
      forall e, e ∈ bookings st -> conflicting (heap st booking) (heap st e) ->
        e <> booking
        /\ heap st' e = heap st e
        /\ status (heap st' e) = APPROVED
        /\ status (heap st' booking) = APPROVED
        /\ overlaps_with (heap st' booking) (heap st' e) = true
        /\ double_booked st').
Proof.
  intros st'. unfold st', exec.
  destruct (_is_staff_or_admin approver) eqn:Ha.
  - rewrite (approve_booking_run _ _ _ _ _ Ha). cbv zeta.
    destruct (truthy _ && negb force) eqn:Hb; cbn [snd].
    + split; [done|]. split; [done|].
      split; [exists (status (heap st booking)); by rewrite heap_log, with_status_same|].
      intros _ -> _ e He Hc.
      assert (has_conflict st (heap st booking)) as Hh by (by exists e).
      apply truthy_conflicts_for in Hh. by rewrite Hh in Hb.
    + split; [done|].
      split; [intros l Hl; by rewrite heap_log, heap_store, decide_False|].
      split; [exists APPROVED; by rewrite heap_log, heap_store, decide_True|].
      intros _ _ Hin e He Hc.
      assert (e <> booking) as Hne.
      { intros ->. by destruct Hc as [Hid _]. }
      destruct Hc as (Hid & Hres & Hst & Hlt & Hgt).
      set (st1 := log _ _).
      assert (heap st1 e = heap st e) as He'.
      { unfold st1. by rewrite heap_log, heap_store, decide_False. }
      assert (heap st1 booking = with_status (heap st booking) APPROVED) as Hb'.
      { unfold st1. by rewrite heap_log, heap_store, decide_True. }
      assert (overlaps_with (heap st1 booking) (heap st1 e) = true) as Hov.
      { rewrite He', Hb'. unfold overlaps_with. simpl.
        by rewrite Hlt, Hgt, Hres, String.eqb_refl. }
      split; [done|]. split; [done|]. split; [by rewrite He'|].
      split; [by rewrite Hb'|]. split; [done|].
      exists booking, e.
      split; [done|]. split; [done|]. split; [done|].
      split; [by rewrite Hb'|]. split; [by rewrite He'|done].
  - rewrite (approve_booking_unauthorized _ _ _ _ _ Ha). cbn [snd].
    split; [done|]. split; [done|].
    split; [exists (status (heap st booking)); by rewrite with_status_same|].
    intros Hauth. apply authorized_spec in Hauth. congruence.
Qed.

(** ** Rescheduling *)

Lemma dt_gtb_not_leb a b : dt_gtb a b = true -> dt_leb a b = false.
Proof. rewrite dt_gtb_ltb, dt_leb_ltb. by intros ->. Qed.

(** On naive datetimes: an authorized [reschedule_booking] with
    [new_end > new_start].  If the booking with the new interval has a
    conflict and [force_override] is false, the call returns [False], start,
    end and status of the booking (and every object) are as before, and one
    RESCHEDULE entry without [previous_state] is appended.  Otherwise it
    returns [True], the booking has the new times and status APPROVED, and
    one RESCHEDULE entry whose [previous_state] holds the old start, end and
    status is appended. *)
Lemma reschedule_booking_naive (st : State) (booking : loc) (who : User)
    (ns ne : datetime) (force : bool) (w : Fresh) :
  authorized who ->
  dt_gtb ne ns = true ->
  let b := heap st booking in
  let candidate := with_end_time (with_start_time b ns) ne in
  (has_conflict st candidate /\ force = false ->
   exists st' entry,
     reschedule_booking booking who ns ne force w st = (Return false, st')
     /\ start_time (heap st' booking) = start_time b
     /\ end_time (heap st' booking) = end_time b
     /\ status (heap st' booking) = status b
     /\ same_bookings st st'
     /\ appended st st' entry
     /\ action entry = RESCHEDULE
     /\ previous_state entry = None)
  /\ (~ (has_conflict st candidate /\ force = false) ->
      exists st' entry,
        reschedule_booking booking who ns ne force w st = (Return true, st')
        /\ start_time (heap st' booking) = ns
        /\ end_time (heap st' booking) = ne
        /\ status (heap st' booking) = APPROVED
        /\ appended st st' entry
        /\ action entry = RESCHEDULE
        /\ previous_state entry
           = Some {[ "start_time" := isoformat (start_time b);
                     "end_time" := isoformat (end_time b);
                     "status" := status_value (status b) ]}).
Proof.
  intros Ha Hv b candidate. apply authorized_spec in Ha. apply dt_gtb_not_leb in Hv.
  destruct (reschedule_booking_run booking who ns ne force w st Ha Hv)
    as (st' & Hrun & _ & Hbk & _ & _ & Hother & Hb & Hlog).
  cbv zeta in Hrun, Hb, Hlog. fold b candidate in Hrun, Hb, Hlog.
  split.
  - intros [Hc ->]. apply truthy_conflicts_for in Hc.
    rewrite Hc in Hrun, Hb, Hlog. cbn [negb andb] in Hrun, Hb, Hlog.
    eexists st', _. split; [exact Hrun|]. rewrite Hb.
    split; [done|]. split; [done|]. split; [done|].
    split.
    { split; [done|]. intros l. destruct (decide (l = booking)) as [->|Hl]; auto. }
    split; [exact Hlog|]. done.
  - intros Hn.
    assert (truthy (conflicts_for st candidate) && negb force = false) as Hf.
    { destruct (truthy _) eqn:Hc; [|done]. destruct force; [done|].
      exfalso. apply Hn. split; [|done]. by apply truthy_conflicts_for. }
    rewrite Hf in Hrun, Hb, Hlog. cbn [negb] in Hrun.
    eexists st', _. split; [exact Hrun|]. rewrite Hb.
    split; [done|]. split; [done|]. split; [done|].
    split; [exact Hlog|]. done.
Qed.

(** ** Hard failures *)

(** C7: a staff action by an actor who is neither STAFF nor ADMIN, a cancel
    by a user who is neither the requester (by id) nor STAFF or ADMIN, and
    a create or reschedule with [end <= start] raise, and the state at the
    raise is the state before the call: no object, collection or audit
    entry is written. *)
Theorem C7_hard_failures (st : State) (w : Fresh) :
  (forall booking actor force, ~ authorized actor ->
     approve_booking booking actor force w st
     = (Raise (PermissionError "Only staff or admin can approve bookings"), st))
  /\ (forall booking actor reason, ~ authorized actor ->
        deny_booking booking actor reason w st
        = (Raise (PermissionError "Only staff or admin can deny bookings"), st))
  /\ (forall booking actor ns ne force, ~ authorized actor ->
        reschedule_booking booking actor ns ne force w st
        = (Raise (PermissionError "Only staff or admin can reschedule bookings"), st))
  /\ (forall booking actor higher reason, ~ authorized actor ->
        bump_booking booking actor higher reason w st
        = (Raise (PermissionError "Only staff or admin can bump bookings"), st))
  /\ (forall booking actor reason,
        user_id (requester (heap st booking)) <> user_id actor ->
        ~ authorized actor ->
        cancel_booking booking actor reason w st
        = (Raise (PermissionError "Only the requester or staff can cancel a booking"), st))
  /\ (forall res req s e purp prio wb, dt_leb e s = true ->
        create_booking_request res req s e purp prio wb w st
        = (Raise (ValueError "End time must be after start time"), st))
  /\ (forall booking actor ns ne force, dt_leb ne ns = true ->
        exists exn, reschedule_booking booking actor ns ne force w st = (Raise exn, st)).
Proof.
  split; [|split; [|split; [|split; [|split; [|split]]]]].
  - intros ? ? ? H%not_authorized_spec. by apply approve_booking_unauthorized.
  - intros ? ? ? H%not_authorized_spec. by apply deny_booking_unauthorized.
  - intros ? ? ? ? ? H%not_authorized_spec. by apply reschedule_booking_unauthorized.
  - intros ? ? ? ? H%not_authorized_spec. by apply bump_booking_unauthorized.
  - intros ? ? ? Hid H%not_authorized_spec. by apply cancel_booking_unauthorized.
  - intros. by apply create_booking_request_invalid.
  - intros booking actor ns ne force Hv.
    destruct (_is_staff_or_admin actor) eqn:Ha.
    + eexists. by apply reschedule_booking_invalid.
    + eexists. by apply reschedule_booking_unauthorized.
Qed.

(** ** The audit log *)

Lemma audit_step_raise {A} w st (e : Exception) :
  audit_step w st (@Raise A e, st).
Proof. split; [done|]. intros v Hv. discriminate. Qed.

Lemma audit_step_return {A} w st st' (v : A) e :
  appended st st' e -> timestamp e = now w -> audit_step w st (Return v, st').
Proof.
  intros Happ Ht. split.
  - simpl. rewrite Happ. by apply prefix_app_r.
  - intros _ _. by exists e.
Qed.

Lemma approve_booking_audit st w booking approver force :
  audit_step w st (approve_booking booking approver force w st).
Proof.
  destruct (_is_staff_or_admin approver) eqn:Ha.
  - rewrite (approve_booking_run _ _ _ _ _ Ha). cbv zeta.
    destruct (truthy _ && negb force); by eapply audit_step_return.
  - rewrite (approve_booking_unauthorized _ _ _ _ _ Ha). apply audit_step_raise.
Qed.

Lemma deny_booking_audit st w booking who reason :
  audit_step w st (deny_booking booking who reason w st).
Proof.
  destruct (_is_staff_or_admin who) eqn:Ha.
  - rewrite (deny_booking_run _ _ _ _ _ Ha). by eapply audit_step_return.
  - rewrite (deny_booking_unauthorized _ _ _ _ _ Ha). apply audit_step_raise.
Qed.

Lemma bump_booking_audit st w booking who higher reason :
  audit_step w st (bump_booking booking who higher reason w st).
Proof.
  destruct (_is_staff_or_admin who) eqn:Ha.
  - rewrite (bump_booking_run _ _ _ _ _ _ Ha). by eapply audit_step_return.
  - rewrite (bump_booking_unauthorized _ _ _ _ _ _ Ha). apply audit_step_raise.
Qed.

Lemma cancel_booking_audit st w booking who reason :
  audit_step w st (cancel_booking booking who reason w st).
Proof.
  destruct (_is_staff_or_admin who) eqn:Ha.
  - rewrite cancel_booking_run by auto. by eapply audit_step_return.
  - destruct (decide (user_id (requester (heap st booking)) = user_id who)) as [Hid|Hid].
    + rewrite cancel_booking_run by auto. by eapply audit_step_return.
    + rewrite cancel_booking_unauthorized by done. apply audit_step_raise.
Qed.

Lemma create_booking_request_audit st w res req s e purp prio wb :
  audit_step w st (create_booking_request res req s e purp prio wb w st).
Proof.
  destruct (dt_leb e s) eqn:Hv.
  - rewrite create_booking_request_invalid by done. apply audit_step_raise.
  - rewrite create_booking_request_run by done. by eapply audit_step_return.
Qed.

Lemma reschedule_booking_audit st w booking who ns ne force :
  audit_step w st (reschedule_booking booking who ns ne force w st).
Proof.
  destruct (_is_staff_or_admin who) eqn:Ha.
  - destruct (dt_leb ne ns) eqn:Hv.
    + rewrite reschedule_booking_invalid by done. apply audit_step_raise.
    + destruct (reschedule_booking_run booking who ns ne force w st Ha Hv)
        as (st' & -> & _ & _ & _ & _ & _ & _ & Hlog).
      eapply audit_step_return; [exact Hlog|].
      cbv zeta. by destruct (truthy _ && negb force).
  - rewrite reschedule_booking_unauthorized by done. apply audit_step_raise.
Qed.

(** C2: each of the six workflow methods leaves the old audit log as a
    prefix of the new one, and a call that returns has appended exactly one
    entry, stamped with the time of the call.  When [approve_booking] or
    [reschedule_booking] returns [False], that entry has no
    [previous_state], its details name the conflicting bookings, and every
    booking object and the collection are as before the call. *)
Theorem C2_audit_log_append_only (st : State) (w : Fresh) :
  (forall res req s e purp prio wb,
     audit_step w st (create_booking_request res req s e purp prio wb w st))
  /\ (forall booking approver force,
        audit_step w st (approve_booking booking approver force w st))
  /\ (forall booking who reason,
        audit_step w st (deny_booking booking who reason w st))
  /\ (forall booking who ns ne force,
        audit_step w st (reschedule_booking booking who ns ne force w st))
  /\ (forall booking who higher reason,
        audit_step w st (bump_booking booking who higher reason w st))
  /\ (forall booking who reason,
        audit_step w st (cancel_booking booking who reason w st))
  /\ (forall booking approver force st',
        approve_booking booking approver force w st = (Return false, st') ->
        exists e, appended st st' e
          /\ action e = APPROVE
          /\ previous_state e = None
          /\ details e = "Cannot approve due to conflicts with bookings: "
                         +:+ repr_list (conflict_ids st
                                          (conflicts_for st (heap st booking)))
          /\ same_bookings st st')
  /\ (forall booking who ns ne force st',
        reschedule_booking booking who ns ne force w st = (Return false, st') ->
        exists e, appended st st' e
          /\ action e = RESCHEDULE
          /\ previous_state e = None
          /\ details e = "Cannot reschedule due to conflicts with bookings: "
                         +:+ repr_list
                               (conflict_ids st
                                  (conflicts_for st
                                     (with_end_time
                                        (with_start_time (heap st booking) ns) ne)))
          /\ same_bookings st st').
Proof.
  split; [intros; apply create_booking_request_audit|].
  split; [intros; apply approve_booking_audit|].
  split; [intros; apply deny_booking_audit|].
  split; [intros; apply reschedule_booking_audit|].
  split; [intros; apply bump_booking_audit|].
  split; [intros; apply cancel_booking_audit|].
  split.
  - intros booking approver force st' Hrun.
    destruct (_is_staff_or_admin approver) eqn:Ha.
    + rewrite (approve_booking_run _ _ _ _ _ Ha) in Hrun. cbv zeta in Hrun.
      destruct (truthy _ && negb force); [|discriminate].
      injection Hrun as <-. eexists. split; [apply appended_log|].
      repeat split.
    + by rewrite (approve_booking_unauthorized _ _ _ _ _ Ha) in Hrun.
  - intros booking who ns ne force st' Hrun.
    destruct (_is_staff_or_admin who) eqn:Ha;
      [|by rewrite reschedule_booking_unauthorized in Hrun].
    destruct (dt_leb ne ns) eqn:Hv;
      [by rewrite reschedule_booking_invalid in Hrun|].
    destruct (reschedule_booking_run booking who ns ne force w st Ha Hv)
      as (st1 & Hrun1 & _ & Hbk & _ & _ & Hother & Hb & Hlog).
    rewrite Hrun1 in Hrun. cbv zeta in Hrun, Hb, Hlog.
    destruct (truthy _ && negb force); [|discriminate].
    injection Hrun as <-. eexists. split; [exact Hlog|].
    split; [done|]. split; [done|]. split; [done|].
    split; [done|]. intros l. destruct (decide (l = booking)) as [->|Hl]; auto.
Qed.

(** ** Terminal statuses *)




(** ** The scenario, evaluated *)

Example scenario_statuses :
  map (fun l => status (heap st_b2_pending l)) (bookings st_b2_pending)
  = [APPROVED; PENDING].
Proof. vm_compute. reflexivity. Qed.

Example scenario_check_conflicts :
  outcome (check_conflicts 1) st_b2_pending = Return [0]
  /\ outcome (check_conflicts 0) st_b2_pending = Return [].
Proof. split; vm_compute; reflexivity. Qed.

Example scenario_blocked_details :
  map details (audit_log (exec (approve_booking 1 bob false (fresh "e4" 3)) st_b2_pending))
  = ["Booking request created for Bay 1"; "Booking approved";
     "Booking request created for Bay 1";
     "Cannot approve due to conflicts with bookings: ['b1']"].
Proof. vm_compute. reflexivity. Qed.

Example scenario_query :
  outcome (get_bookings_by_resource "bay-001" (Some (at_time 12 0)) None None)
          st_b2_pending = Return [0; 1]
  /\ outcome (get_bookings_by_resource "bay-001" None None (Some PENDING))
             st_b2_pending = Return [1].
Proof. split; vm_compute; reflexivity. Qed.

Example sorted_is_stable :
  sorted fst [(at_time 11 0, "a"); (at_time 10 0, "b");
              (at_time 11 0, "c"); (at_time 10 0, "d")]
  = [(at_time 10 0, "b"); (at_time 10 0, "d");
     (at_time 11 0, "a"); (at_time 11 0, "c")].
Proof. vm_compute. reflexivity. Qed.

Lemma bob_authorized : authorized bob.
Proof. by left. Qed.

Lemma alice_not_authorized : ~ authorized alice.
Proof. intros [H|H]; discriminate. Qed.

Lemma b2_has_conflict : has_conflict st_b2_pending (heap st_b2_pending 1).
Proof. apply truthy_conflicts_for. vm_compute. reflexivity. Qed.




Lemma C2_witness :
  approve_booking 1 bob false (fresh "e4" 3) st_b2_pending
  = (Return false, exec (approve_booking 1 bob false (fresh "e4" 3)) st_b2_pending)
  /\ exists e,
       appended st_b2_pending
                (exec (approve_booking 1 bob false (fresh "e4" 3)) st_b2_pending) e
       /\ previous_state e = None.
Proof.
  assert (approve_booking 1 bob false (fresh "e4" 3) st_b2_pending
          = (Return false,
             exec (approve_booking 1 bob false (fresh "e4" 3)) st_b2_pending)) as Hrun.
  { vm_compute. reflexivity. }
  split; [exact Hrun|].
  destruct (C2_audit_log_append_only st_b2_pending (fresh "e4" 3))
    as (_ & _ & _ & _ & _ & _ & Hblocked & _).
  destruct (Hblocked 1 bob false _ Hrun) as (e & Happ & _ & Hprev & _).
  exists e. by split.
Defined.





Lemma C7_witness :
  ~ authorized alice
  /\ approve_booking 0 alice false (fresh "e2" 1) st_b1_pending
     = (Raise (PermissionError "Only staff or admin can approve bookings"), st_b1_pending).
Proof.
  split; [exact alice_not_authorized|].
  apply (C7_hard_failures st_b1_pending (fresh "e2" 1)). exact alice_not_authorized.
Defined.

Lemma C10_witness :
  authorized bob
  /\ has_conflict st_b2_pending (heap st_b2_pending 1)
  /\ double_booked (exec (approve_booking 1 bob true (fresh "e4" 3)) st_b2_pending).
Proof.
  split; [exact bob_authorized|]. split; [exact b2_has_conflict|].
  destruct (C10_approve_frame st_b2_pending 1 bob true (fresh "e4" 3))
    as (_ & _ & _ & Hover).
  assert (bookings st_b2_pending = [0; 1]) as Hb by (vm_compute; reflexivity).
  apply (Hover bob_authorized eq_refl) with (e := 0).
  - rewrite Hb. right. left.
  - rewrite Hb. left.
  - apply conflicts_with_spec. vm_compute. reflexivity.
Defined.

(** * Further properties *)

(** ** Overlap *)

(** X1: [overlaps_with] is symmetric, and a booking that ends after it
    starts overlaps itself (so [check_conflicts] needs its exclusion by
    id). *)
Theorem overlaps_with_symmetric (a b : Booking) :
  overlaps_with a b = overlaps_with b a
  /\ (dt_gtb (end_time a) (start_time a) = true -> overlaps_with a a = true).
Proof.
  unfold overlaps_with. split.
  - rewrite !dt_gtb_ltb, (String.eqb_sym (resource_id (resource a))).
    destruct (String.eqb _ _), (dt_ltb (start_time a) _), (dt_ltb (start_time b) _); done.
  - intros H. rewrite String.eqb_refl, H. rewrite dt_gtb_ltb in H. by rewrite H.
Qed.

Lemma conflicting_symmetric a b :
  status a = APPROVED -> conflicting a b -> conflicting b a.
Proof.
  intros Ha (Hid & Hres & Hst & Hlt & Hgt). unfold conflicting.
  rewrite dt_gtb_ltb in *. done.
Qed.

(** ** Effects of the methods *)

(** X2: [create_booking_request] with [end > start] returns a new reference
    to a PENDING booking with the given fields and the generated id, puts
    it last in the collection, leaves every other object as it is, and
    appends one CREATE entry without [previous_state]; no conflict is
    looked for. *)
Theorem create_booking_request_effect (st : State) (res : Resource) (req : User)
    (s e : datetime) (purp : string) (prio : Z) (wb w : Fresh) :
  dt_gtb e s = true ->
  exists st' entry,
    create_booking_request res req s e purp prio wb w st = (Return (next_loc st), st')
    /\ heap st' (next_loc st)
       = mk_Booking (uuid4 wb) res req s e PENDING purp prio (now wb)
    /\ (forall l, l <> next_loc st -> heap st' l = heap st l)
    /\ bookings st' = bookings st ++ [next_loc st]
    /\ next_loc st' = S (next_loc st)
    /\ appended st st' entry
    /\ entry = mk_AuditLogEntry (uuid4 w) (now w) CREATE req (next_loc st)
                 ("Booking request created for " +:+ resource_name res) None.
Proof.
  intros Hv%dt_gtb_not_leb.
  rewrite create_booking_request_run by done. cbv zeta.
  eexists _, _. split; [reflexivity|]. simpl.
  split; [apply fn_lookup_insert|].
  split; [intros l Hl; by apply fn_lookup_insert_ne|]. done.
Qed.

(** X3: an authorized [deny_booking] sets the status to DENIED whatever it
    was, keeps every other field and every other object, and appends one
    DENY entry that carries the reason and the status before. *)
Theorem deny_booking_effect (st : State) (booking : loc) (denier : User)
    (reason : string) (w : Fresh) :
  authorized denier ->
  exists st' entry,
    deny_booking booking denier reason w st = (Return tt, st')
    /\ heap st' booking = with_status (heap st booking) DENIED
    /\ (forall l, l <> booking -> heap st' l = heap st l)
    /\ bookings st' = bookings st
    /\ appended st st' entry
    /\ entry = mk_AuditLogEntry (uuid4 w) (now w) DENY denier booking
                 ("Booking denied. Reason: " +:+ reason)
                 (Some {[ "status" := status_value (status (heap st booking)) ]}).
Proof.
  intros Ha%authorized_spec. rewrite (deny_booking_run _ _ _ _ _ Ha). cbv zeta.
  eexists _, _. split; [reflexivity|].
  split; [by rewrite heap_log, heap_store, decide_True|].
  split; [intros l Hl; by rewrite heap_log, heap_store, decide_False|]. done.
Qed.

(** X4: an authorized [bump_booking] sets the status of the bumped booking
    to BUMPED, whatever the two priorities are, and appends one BUMP entry
    that names the id of the other booking and the reason; the other
    booking, when it is another object, is not written. *)
Theorem bump_booking_effect (st : State) (booking_to_bump : loc) (bumper : User)
    (higher : loc) (reason : string) (w : Fresh) :
  authorized bumper ->
  exists st' entry,
    bump_booking booking_to_bump bumper higher reason w st = (Return tt, st')
    /\ heap st' booking_to_bump = with_status (heap st booking_to_bump) BUMPED
    /\ (forall l, l <> booking_to_bump -> heap st' l = heap st l)
    /\ (higher <> booking_to_bump -> heap st' higher = heap st higher)
    /\ bookings st' = bookings st
    /\ appended st st' entry
    /\ entry = mk_AuditLogEntry (uuid4 w) (now w) BUMP bumper booking_to_bump
                 ("Booking bumped for higher priority booking "
                  +:+ booking_id (heap st higher) +:+ ". Reason: " +:+ reason)
                 (Some {[ "status" := status_value (status (heap st booking_to_bump)) ]}).
Proof.
  intros Ha%authorized_spec. rewrite (bump_booking_run _ _ _ _ _ _ Ha). cbv zeta.
  eexists _, _. split; [reflexivity|].
  split; [by rewrite heap_log, heap_store, decide_True|].
  split; [intros l Hl; by rewrite heap_log, heap_store, decide_False|].
  split; [intros Hl; by rewrite heap_log, heap_store, decide_False|]. done.
Qed.

(** X5: [cancel_booking] returns exactly when the canceller has the id of
    the booking's requester or is STAFF or ADMIN, and raises otherwise; when
    it returns, the status is CANCELLED, every other field and object is
    kept, and one CANCEL entry with the reason and the status before is
    appended. *)
Theorem cancel_booking_effect (st : State) (booking : loc) (canceller : User)
    (reason : string) (w : Fresh) :
  let allowed := user_id (requester (heap st booking)) = user_id canceller
                 \/ authorized canceller in
  (allowed ->
   exists st' entry,
     cancel_booking booking canceller reason w st = (Return tt, st')
     /\ heap st' booking = with_status (heap st booking) CANCELLED
     /\ (forall l, l <> booking -> heap st' l = heap st l)
     /\ bookings st' = bookings st
     /\ appended st st' entry
     /\ entry = mk_AuditLogEntry (uuid4 w) (now w) CANCEL canceller booking
                  ("Booking cancelled. Reason: " +:+ reason)
                  (Some {[ "status" := status_value (status (heap st booking)) ]}))
  /\ (~ allowed ->
      cancel_booking booking canceller reason w st
      = (Raise (PermissionError "Only the requester or staff can cancel a booking"), st)).
Proof.
  intros allowed. split.
  - intros Hal.
    rewrite cancel_booking_run; [|destruct Hal as [?|?%authorized_spec]; auto].
    cbv zeta. eexists _, _. split; [reflexivity|].
    split; [by rewrite heap_log, heap_store, decide_True|].
    split; [intros l Hl; by rewrite heap_log, heap_store, decide_False|]. done.
  - intros Hn. apply cancel_booking_unauthorized.
    + intros Hid. apply Hn. by left.
    + apply not_authorized_spec. intros Ha. apply Hn. by right.
Qed.

(** ** The shape of a call *)

Lemma same_identity_refl b : same_identity b b.
Proof. by repeat split. Qed.

Lemma same_identity_with_status b s : same_identity b (with_status b s).
Proof. by repeat split. Qed.

Lemma step_shape_same force st l : step_shape force st st l.
Proof.
  exists (heap st l). split; [by repeat split|].
  split; [apply same_identity_refl|]. split; [auto|]. split; auto.
Qed.

Lemma step_shape_log force st st' l e :
  step_shape force st st' l -> step_shape force st (log st' e) l.
Proof.
  intros (b' & (?&?&?&?&?&?) & Hw). exists b'. split; [by repeat split|exact Hw].
Qed.

Lemma updates_store st l b : updates st (store st l b) l b.
Proof.
  repeat split; [by rewrite heap_store, decide_True|].
  intros l' Hl. by rewrite heap_store, decide_False.
Qed.

Lemma step_shape_status st l s e :
  s <> APPROVED -> s <> PENDING ->
  step_shape false st (log (store st l (with_status (heap st l) s)) e) l.
Proof.
  intros Hs Hp. apply step_shape_log. exists (with_status (heap st l) s).
  split; [apply updates_store|].
  split; [apply same_identity_with_status|]. split; [by left|].
  split; [by right; left|by right].
Qed.

Lemma conflicts_for_with_status st b s :
  conflicts_for st (with_status b s) = conflicts_for st b.
Proof. reflexivity. Qed.

Lemma has_conflict_with_status st b s :
  has_conflict st (with_status b s) <-> has_conflict st b.
Proof. by rewrite <- !truthy_conflicts_for, conflicts_for_with_status. Qed.

Lemma approve_booking_shape booking approver force w st :
  step_shape force st (exec (approve_booking booking approver force w) st) booking.
Proof.
  unfold exec. destruct (_is_staff_or_admin approver) eqn:Ha.
  - rewrite (approve_booking_run _ _ _ _ _ Ha). cbv zeta.
    destruct (truthy _ && negb force) eqn:Hb; cbn [snd].
    + apply step_shape_log, step_shape_same.
    + apply step_shape_log. exists (with_status (heap st booking) APPROVED).
      split; [apply updates_store|].
      split; [apply same_identity_with_status|]. split; [by left|].
      split; [|by right].
      right; right. intros ->. rewrite has_conflict_with_status.
      apply falsy_conflicts_for. by rewrite andb_true_r in Hb.
  - rewrite (approve_booking_unauthorized _ _ _ _ _ Ha). apply step_shape_same.
Qed.

Lemma deny_booking_shape booking who reason w st :
  step_shape false st (exec (deny_booking booking who reason w) st) booking.
Proof.
  unfold exec. destruct (_is_staff_or_admin who) eqn:Ha.
  - rewrite (deny_booking_run _ _ _ _ _ Ha). by apply step_shape_status.
  - rewrite (deny_booking_unauthorized _ _ _ _ _ Ha). apply step_shape_same.
Qed.

Lemma bump_booking_shape booking who higher reason w st :
  step_shape false st (exec (bump_booking booking who higher reason w) st) booking.
Proof.
  unfold exec. destruct (_is_staff_or_admin who) eqn:Ha.
  - rewrite (bump_booking_run _ _ _ _ _ _ Ha). by apply step_shape_status.
  - rewrite (bump_booking_unauthorized _ _ _ _ _ _ Ha). apply step_shape_same.
Qed.

Lemma cancel_booking_shape booking who reason w st :
  step_shape false st (exec (cancel_booking booking who reason w) st) booking.
Proof.
  unfold exec.
  destruct (_is_staff_or_admin who) eqn:Ha;
    [|destruct (decide (user_id (requester (heap st booking)) = user_id who))].
  - rewrite cancel_booking_run by auto. by apply step_shape_status.
  - rewrite cancel_booking_run by auto. by apply step_shape_status.
  - rewrite cancel_booking_unauthorized by done. apply step_shape_same.
Qed.

Lemma reschedule_booking_shape booking who ns ne force w st :
  step_shape force st (exec (reschedule_booking booking who ns ne force w) st) booking.
Proof.
  unfold exec. destruct (_is_staff_or_admin who) eqn:Ha.
  - destruct (dt_leb ne ns) eqn:Hv.
    + rewrite reschedule_booking_invalid by done. apply step_shape_same.
    + destruct (reschedule_booking_run booking who ns ne force w st Ha Hv)
        as (st' & -> & Hn & Hbk & Hr & Hu & Hother & Hb & _).
      cbv zeta in Hb. cbn [snd].
      destruct (truthy _ && negb force) eqn:Hblocked.
      * exists (heap st booking). split; [by repeat split|].
        split; [apply same_identity_refl|]. split; [auto|]. split; auto.
      * exists (with_status
                  (with_end_time (with_start_time (heap st booking) ns) ne) APPROVED).
        split; [by repeat split|].
        split; [by repeat split|].
        split.
        { right. simpl. by rewrite dt_gtb_ltb, <- negb_false_iff, <- dt_leb_ltb. }
        split; [|by right].
        right; right. intros ->. rewrite has_conflict_with_status.
        apply falsy_conflicts_for. by rewrite andb_true_r in Hblocked.
  - rewrite reschedule_booking_unauthorized by done. apply step_shape_same.
Qed.

Lemma create_booking_request_shape res req s e purp prio wb w st :
  let st' := exec (create_booking_request res req s e purp prio wb w) st in
  (st' = st \/ create_shape st st') /\ log_shape (now w) (next_loc st) st st'.
Proof.
  cbv zeta. unfold exec. destruct (dt_leb e s) eqn:Hv.
  - rewrite create_booking_request_invalid by done. split; by left.
  - rewrite create_booking_request_run by done. cbv zeta. cbn [snd]. split.
    + right. exists (mk_Booking (uuid4 wb) res req s e PENDING purp prio (now wb)).
      split; [done|]. split.
      { simpl. by rewrite dt_gtb_ltb, <- negb_false_iff, <- dt_leb_ltb. }
      split; [done|]. split; [done|]. split; [done|]. split; [done|]. simpl.
      split; [apply fn_lookup_insert|]. intros l Hl. by apply fn_lookup_insert_ne.
    + right. eexists. by repeat split.
Qed.

Lemma log_shape_log t l st st1 e :
  audit_log st1 = audit_log st -> timestamp e = t -> booking e = l ->
  log_shape t l st (log st1 e).
Proof. intros H1 H2 H3. right. exists e. unfold appended. simpl. by rewrite H1. Qed.

Lemma approve_booking_log_shape booking approver force w st :
  log_shape (now w) booking st (exec (approve_booking booking approver force w) st).
Proof.
  unfold exec. destruct (_is_staff_or_admin approver) eqn:Ha.
  - rewrite (approve_booking_run _ _ _ _ _ Ha). cbv zeta.
    destruct (truthy _ && negb force); by apply log_shape_log.
  - rewrite (approve_booking_unauthorized _ _ _ _ _ Ha). by left.
Qed.

Lemma deny_booking_log_shape booking who reason w st :
  log_shape (now w) booking st (exec (deny_booking booking who reason w) st).
Proof.
  unfold exec. destruct (_is_staff_or_admin who) eqn:Ha.
  - rewrite (deny_booking_run _ _ _ _ _ Ha). by apply log_shape_log.
  - rewrite (deny_booking_unauthorized _ _ _ _ _ Ha). by left.
Qed.

Lemma bump_booking_log_shape booking who higher reason w st :
  log_shape (now w) booking st (exec (bump_booking booking who higher reason w) st).
Proof.
  unfold exec. destruct (_is_staff_or_admin who) eqn:Ha.
  - rewrite (bump_booking_run _ _ _ _ _ _ Ha). by apply log_shape_log.
  - rewrite (bump_booking_unauthorized _ _ _ _ _ _ Ha). by left.
Qed.

Lemma cancel_booking_log_shape booking who reason w st :
  log_shape (now w) booking st (exec (cancel_booking booking who reason w) st).
Proof.
  unfold exec.
  destruct (_is_staff_or_admin who) eqn:Ha;
    [|destruct (decide (user_id (requester (heap st booking)) = user_id who))].
  - rewrite cancel_booking_run by auto. by apply log_shape_log.
  - rewrite cancel_booking_run by auto. by apply log_shape_log.
  - rewrite cancel_booking_unauthorized by done. by left.
Qed.

Lemma reschedule_booking_log_shape booking who ns ne force w st :
  log_shape (now w) booking st (exec (reschedule_booking booking who ns ne force w) st).
Proof.
  unfold exec. destruct (_is_staff_or_admin who) eqn:Ha.
  - destruct (dt_leb ne ns) eqn:Hv.
    + rewrite reschedule_booking_invalid by done. by left.
    + destruct (reschedule_booking_run booking who ns ne force w st Ha Hv)
        as (st' & -> & _ & _ & _ & _ & _ & _ & Hlog).
      cbv zeta in Hlog. cbn [snd]. right. eexists. split; [exact Hlog|].
      by destruct (truthy _ && negb force).
  - rewrite reschedule_booking_unauthorized by done. by left.
Qed.

Lemma call_cases c st :
  step_shape (overrides c) st (call c st) (target c st)
  \/ create_shape st (call c st).
Proof.
  destruct c; simpl.
  - destruct (create_booking_request_shape resource0 requester0 start_time0 end_time0
                purpose0 priority0 wb w st) as [[->|H] _]; [left|by right].
    apply step_shape_same.
  - left. apply approve_booking_shape.
  - left. apply deny_booking_shape.
  - left. apply reschedule_booking_shape.
  - left. apply bump_booking_shape.
  - left. apply cancel_booking_shape.
Qed.

Lemma call_log_shape c st : log_shape (call_now c) (target c st) st (call c st).
Proof.
  destruct c; simpl.
  - apply create_booking_request_shape.
  - apply approve_booking_log_shape.
  - apply deny_booking_log_shape.
  - apply reschedule_booking_log_shape.
  - apply bump_booking_log_shape.
  - apply cancel_booking_log_shape.
Qed.

(** ** Invariants of a call *)

Lemma call_next_loc c st : next_loc st <= next_loc (call c st).
Proof.
  destruct (call_cases c st) as [(b' & (Hn & _) & _)|(b & _ & _ & Hn & _)]; lia.
Qed.

Lemma call_same_identity c st l :
  l < next_loc st -> same_identity (heap st l) (heap (call c st) l).
Proof.
  intros Hl.
  destruct (call_cases c st) as [(b' & (_&_&_&_& Hb & Hother) & Hid & _)
                                |(b & _ & _ & _ & _ & _ & _ & _ & Hother)].
  - destruct (decide (l = target c st)) as [->|Hne].
    + by rewrite Hb.
    + rewrite Hother by done. apply same_identity_refl.
  - rewrite Hother by lia. apply same_identity_refl.
Qed.

Lemma call_bookings c st : bookings st `prefix_of` bookings (call c st).
Proof.
  destruct (call_cases c st) as [(b' & (_ & -> & _) & _)|(b & _ & _ & _ & -> & _)].
  - done.
  - by apply prefix_app_r.
Qed.

Lemma call_audit_log c st : audit_log st `prefix_of` audit_log (call c st).
Proof.
  destruct (call_log_shape c st) as [->|(e & -> & _)]; [done|by apply prefix_app_r].
Qed.

Lemma call_valid_intervals c st : valid_intervals st -> valid_intervals (call c st).
Proof.
  intros Hv.
  destruct (call_cases c st) as [(b' & (_& Hbk &_&_& Hb & Hother) & _ & Ht & _)
                                |(b & _ & Hvb & _ & Hbk & _ & _ & Hb & Hother)];
    intros l Hl; rewrite Hbk in Hl.
  - destruct (decide (l = target c st)) as [->|Hne].
    + rewrite Hb. destruct Ht as [[-> ->]|Ht]; [by apply Hv|done].
    + rewrite Hother by done. by apply Hv.
  - destruct (decide (l = next_loc st)) as [->|Hne].
    + by rewrite Hb.
    + rewrite Hother by done. apply Hv.
      apply elem_of_app in Hl as [Hl|Hl]; [done|]. by apply list_elem_of_singleton in Hl.
Qed.

Lemma conflict_free_step st st' l :
  conflict_free st -> step_shape false st st' l -> conflict_free st'.
Proof.
  intros Hcf (b' & (_& Hbk &_&_& Hb & Hother) & _ & _ & Hw & _) a Ha Hsa (e & He & Hc).
  rewrite Hbk in Ha, He.
  assert (b' = heap st l -> False) as Hsame.
  { intros ->. apply (Hcf a Ha).
    - destruct (decide (a = l)) as [->|?]; [by rewrite <- Hb|by rewrite <- Hother].
    - exists e. split; [done|].
      destruct (decide (a = l)) as [->|?], (decide (e = l)) as [->|?];
        rewrite <- ?Hb, <- ?Hother by done; done. }
  destruct (decide (a = l)) as [->|Hal], (decide (e = l)) as [->|Hel];
    rewrite ?Hb in Hsa; rewrite ?Hb in Hc;
    rewrite ?Hother in Hsa by done; rewrite ?Hother in Hc by done.
  - by destruct Hc as [Hid _].
  - destruct Hw as [?|[?|Hw]]; [auto|done|]. apply Hw; [done|]. by exists e.
  - destruct Hw as [?|[?|Hw]]; [auto| |].
    + by destruct Hc as (_ & _ & ? & _).
    + apply Hw; [done|]. exists a. split; [done|]. by apply conflicting_symmetric.
  - apply (Hcf a Ha Hsa). by exists e.
Qed.

Lemma conflict_free_create st st' :
  conflict_free st -> create_shape st st' -> conflict_free st'.
Proof.
  intros Hcf (b & Hs & _ & _ & Hbk & _ & _ & Hb & Hother) a Ha Hsa (e & He & Hc).
  rewrite Hbk in Ha, He.
  assert (forall x, x ∈ bookings st ++ [next_loc st] -> x <> next_loc st ->
                    x ∈ bookings st) as Hold.
  { intros x Hx Hne. apply elem_of_app in Hx as [Hx|Hx]; [done|].
    by apply list_elem_of_singleton in Hx. }
  assert (a <> next_loc st) as Han.
  { intros ->. rewrite Hb, Hs in Hsa. discriminate. }
  assert (e <> next_loc st) as Hen.
  { intros ->. rewrite Hb in Hc. destruct Hc as (_ & _ & Hse & _).
    rewrite Hs in Hse. discriminate. }
  rewrite Hother in Hsa by done. rewrite !Hother in Hc by done.
  apply (Hcf a); [by apply Hold|done|]. exists e. split; [by apply Hold|done].
Qed.

Lemma call_conflict_free c st :
  overrides c = false -> conflict_free st -> conflict_free (call c st).
Proof.
  intros Ho Hcf. destruct (call_cases c st) as [H|H].
  - rewrite Ho in H. by eapply conflict_free_step.
  - by eapply conflict_free_create.
Qed.

Lemma call_not_pending c st l :
  l < next_loc st -> status (heap st l) <> PENDING ->
  status (heap (call c st) l) <> PENDING.
Proof.
  intros Hl Hs.
  destruct (call_cases c st) as [(b' & (_&_&_&_& Hb & Hother) & _ & _ & _ & Hp)
                                |(b & _ & _ & _ & _ & _ & _ & _ & Hother)].
  - destruct (decide (l = target c st)) as [->|Hne].
    + rewrite Hb. destruct Hp as [->|Hp]; done.
    + by rewrite Hother.
  - rewrite Hother by lia. done.
Qed.

Lemma session_cons c cs st : session (c :: cs) st = session cs (call c st).
Proof. reflexivity. Qed.

(** ** Sessions *)

(** X6: over any sequence of calls, a booking that exists keeps its id,
    resource, requester, purpose, priority and creation time. *)
Theorem session_identity_immutable (cs : list Call) (st : State) (l : loc) :
  l < next_loc st ->
  same_identity (heap st l) (heap (session cs st) l).
Proof.
  revert st. induction cs as [|c cs IH]; intros st Hl; [apply same_identity_refl|].
  rewrite session_cons.
  pose proof (call_same_identity c st l Hl) as (?&?&?&?&?&?).
  destruct (IH (call c st)) as (?&?&?&?&?&?).
  { pose proof (call_next_loc c st). lia. }
  repeat split; congruence.
Qed.

(** X7: over any sequence of calls, nothing is removed from or rewritten in
    the collection or the audit log: the old lists are prefixes of the new
    ones, and the log grows by at most one entry per call. *)
Theorem session_append_only (cs : list Call) (st : State) :
  bookings st `prefix_of` bookings (session cs st)
  /\ audit_log st `prefix_of` audit_log (session cs st)
  /\ length (audit_log (session cs st)) <= length (audit_log st) + length cs.
Proof.
  revert st. induction cs as [|c cs IH]; intros st; [by simpl; rewrite Nat.add_0_r|].
  rewrite session_cons. destruct (IH (call c st)) as (Hb & Ha & Hn).
  split; [by etrans; [apply call_bookings|]|].
  split; [by etrans; [apply call_audit_log|]|].
  etrans; [exact Hn|]. simpl.
  destruct (call_log_shape c st) as [->|(e & -> & _)]; [lia|].
  rewrite length_app. simpl. lia.
Qed.

(** X8: every booking of a system that started empty ends after it starts,
    whatever calls were made. *)
Theorem session_valid_intervals (cs : list Call) (h : loc -> Booking) (n : loc) :
  valid_intervals (session cs (init_system h n)).
Proof.
  assert (forall st, valid_intervals st -> valid_intervals (session cs st)) as H.
  { induction cs as [|c cs IH]; intros st Hv; [done|].
    rewrite session_cons. by apply IH, call_valid_intervals. }
  apply H. intros l Hl. by apply elem_of_nil in Hl.
Qed.

(** On naive datetimes: calls without [force_override] keep the collection
    free of conflicts. *)
Lemma naive_session_conflict_free (cs : list Call) (st : State) :
  Forall (fun c => overrides c = false) cs ->
  conflict_free st ->
  conflict_free (session cs st).
Proof.
  revert st. induction cs as [|c cs IH]; intros st Ho Hcf; [done|].
  apply Forall_cons in Ho as [Hc Ho]. rewrite session_cons.
  by apply IH, call_conflict_free.
Qed.

(** X10: in a system that started empty with references from [n] on, the
    collection holds the references [n], [n+1], ... of the bookings created,
    each once, in the order of creation. *)
Theorem session_bookings_fresh (cs : list Call) (h : loc -> Booking) (n : loc) :
  let st := session cs (init_system h n) in
  bookings st = seq n (next_loc st - n) /\ NoDup (bookings st).
Proof.
  assert (forall st, n <= next_loc st -> bookings st = seq n (next_loc st - n) ->
            bookings (session cs st)
            = seq n (next_loc (session cs st) - n)) as H.
  { induction cs as [|c cs IH]; intros st Hn Hb; [done|].
    rewrite session_cons. pose proof (call_next_loc c st).
    apply IH; [lia|].
    destruct (call_cases c st) as [(b' & (-> & -> & _) & _)
                                  |(b & _ & _ & -> & -> & _)]; [done|].
    rewrite Hb. replace (S (next_loc st) - n) with (S (next_loc st - n)) by lia.
    rewrite seq_S. do 2 f_equal. lia. }
  cbv zeta. rewrite H.
  - split; [done|]. apply NoDup_ListNoDup, seq_NoDup.
  - simpl. lia.
  - simpl. by rewrite Nat.sub_diag.
Qed.

(** X19: a booking that has left PENDING never is PENDING again, whatever
    calls follow. *)
Theorem session_never_back_to_pending (cs : list Call) (st : State) (l : loc) :
  l < next_loc st ->
  status (heap st l) <> PENDING ->
  status (heap (session cs st) l) <> PENDING.
Proof.
  revert st. induction cs as [|c cs IH]; intros st Hl Hs; [done|].
  rewrite session_cons. apply IH.
  - pose proof (call_next_loc c st). lia.
  - by apply call_not_pending.
Qed.

(** ** The audit trail query *)

Lemma filter_sublist {A} (p : A -> bool) l : List.filter p l `sublist_of` l.
Proof.
  induction l as [|x l IH]; simpl; [constructor|].
  destruct (p x); by constructor.
Qed.

(** X11: [get_audit_trail] returns, in the order of the log and without
    changing the state, the entries whose booking has the given id (read
    through the reference, and only when the id given is not empty) and
    whose timestamp lies in the inclusive window; with the empty id as with
    no id, no entry is left out by id, and with no argument the whole log
    is returned. *)
Theorem get_audit_trail_spec (st : State) (id : option string)
    (start_date end_date : option datetime) :
  let selected :=
    List.filter
      (fun e =>
         match id with
         | Some i => String.eqb i EmptyString
                     || String.eqb (booking_id (heap st (booking e))) i
         | None => true
         end
         && match start_date with Some sd => dt_geb (timestamp e) sd | None => true end
         && match end_date with Some ed => dt_leb (timestamp e) ed | None => true end)
      (audit_log st) in
  get_audit_trail id start_date end_date st = (Return selected, st)
  /\ selected `sublist_of` audit_log st
  /\ get_audit_trail (Some EmptyString) start_date end_date st
     = get_audit_trail None start_date end_date st
  /\ get_audit_trail None None None st = (Return (audit_log st), st).
Proof.
  intros selected. split; [|split; [apply filter_sublist|done]].
  unfold get_audit_trail, gets, selected, str_truthy. do 2 f_equal.
  destruct id as [i|]; [destruct (String.eqb i EmptyString)|];
    destruct start_date, end_date; cbn [negb orb andb];
    rewrite ?filter_andb, ?filter_true;
    try reflexivity; apply filter_ext; intros ?;
    by rewrite ?andb_true_r, ?andb_assoc.
Qed.

Lemma filter_none {A} (p : A -> bool) l :
  (forall x, p x = false) -> List.filter p l = [].
Proof. intros Hp. induction l as [|x l IH]; [done|]. simpl. by rewrite Hp. Qed.

Lemma dt_leb_refl a : dt_leb a a = true.
Proof. by rewrite dt_leb_ltb, dt_ltb_irrefl. Qed.

(** X12: the time window of [get_audit_trail] is inclusive at both ends, and
    a window whose start is after its end selects nothing. *)
Theorem get_audit_trail_window (st : State) (id : option string) (sd ed : datetime) :
  (dt_gtb sd ed = true ->
   get_audit_trail id (Some sd) (Some ed) st = (Return [], st))
  /\ (dt_leb sd ed = true ->
      forall e, e ∈ audit_log st -> timestamp e = sd \/ timestamp e = ed ->
        forall result, get_audit_trail None (Some sd) (Some ed) st = (Return result, st) ->
          e ∈ result).
Proof.
  split.
  - intros Hgt. unfold get_audit_trail, gets. do 2 f_equal.
    rewrite filter_andb. apply filter_none.
    { intros e. apply andb_false_iff.
      destruct (dt_geb (timestamp e) sd) eqn:H1; [right|by left].
      destruct (dt_leb (timestamp e) ed) eqn:H2; [|done].
      rewrite dt_geb_leb in H1. pose proof (dt_leb_trans _ _ _ H1 H2) as H3.
      rewrite dt_gtb_ltb in Hgt. by rewrite dt_leb_ltb, Hgt in H3. }
  - intros Hle e He Ht result Hrun.
    unfold get_audit_trail, gets in Hrun. injection Hrun as <-.
    rewrite filter_andb. apply list_elem_of_In, filter_In.
    split; [by apply list_elem_of_In|].
    rewrite dt_geb_leb. destruct Ht as [-> | ->].
    + by rewrite dt_leb_refl, Hle.
    + by rewrite dt_leb_refl, Hle.
Qed.

(** ** Conflicts, releases and the resource query *)

Lemma conflicts_after_release st st' l s cand :
  updates st st' l (with_status (heap st l) s) ->
  s <> APPROVED -> cand <> l ->
  conflicts_for st' (heap st' cand)
  = List.filter (fun e => negb (Nat.eqb e l)) (conflicts_for st (heap st cand)).
Proof.
  intros (_ & Hbk & _ & _ & Hb & Hother) Hs Hc. unfold conflicts_for.
  rewrite Hbk, filter_andb, (Hother cand Hc). apply filter_ext. intros e.
  destruct (Nat.eqb_spec e l) as [->|Hne].
  - rewrite Hb, andb_false_r. unfold conflicts_with. simpl.
    rewrite bool_decide_eq_false_2 by done. by rewrite andb_false_r.
  - by rewrite Hother, andb_true_r.
Qed.

(** X13: a returning [deny_booking], [bump_booking] or [cancel_booking] on a
    booking releases its slot: for any other candidate, [check_conflicts]
    then returns what it returned before without that booking. *)
Theorem release_frees_slot (st : State) (l cand : loc) (who : User)
    (reason : string) (w : Fresh) :
  cand <> l ->
  forall before, outcome (check_conflicts cand) st = Return before ->
  let after := Return (List.filter (fun e => negb (Nat.eqb e l)) before) in
  (authorized who ->
   outcome (check_conflicts cand) (exec (deny_booking l who reason w) st) = after)
  /\ (forall higher, authorized who ->
      outcome (check_conflicts cand) (exec (bump_booking l who higher reason w) st)
      = after)
  /\ (user_id (requester (heap st l)) = user_id who \/ authorized who ->
      outcome (check_conflicts cand) (exec (cancel_booking l who reason w) st) = after).
Proof.
  intros Hc before Hb after. unfold outcome in *.
  rewrite check_conflicts_run in Hb. injection Hb as <-. unfold after, exec.
  split; [|split].
  - intros Ha%authorized_spec. rewrite (deny_booking_run _ _ _ _ _ Ha). cbv zeta.
    rewrite check_conflicts_run. cbn [fst snd]. f_equal.
    apply (conflicts_after_release st _ l DENIED); [|done|done].
    destruct (updates_store st l (with_status (heap st l) DENIED)) as (?&?&?&?&?&?).
    by repeat split.
  - intros higher Ha%authorized_spec. rewrite (bump_booking_run _ _ _ _ _ _ Ha).
    cbv zeta. rewrite check_conflicts_run. cbn [fst snd]. f_equal.
    apply (conflicts_after_release st _ l BUMPED); [|done|done].
    destruct (updates_store st l (with_status (heap st l) BUMPED)) as (?&?&?&?&?&?).
    by repeat split.
  - intros Hal. rewrite cancel_booking_run;
      [|destruct Hal as [?|?%authorized_spec]; auto].
    cbv zeta. rewrite check_conflicts_run. cbn [fst snd]. f_equal.
    apply (conflicts_after_release st _ l CANCELLED); [|done|done].
    destruct (updates_store st l (with_status (heap st l) CANCELLED)) as (?&?&?&?&?&?).
    by repeat split.
Qed.

(** X14: every booking that [check_conflicts] reports for a candidate is
    among the APPROVED bookings that [get_bookings_by_resource] returns for
    the candidate's resource and the window from its start to its end. *)
Theorem conflicts_in_resource_query (st : State) (cand : loc) (e : loc) :
  let c := heap st cand in
  forall conflicts result,
    check_conflicts cand st = (Return conflicts, st) ->
    get_bookings_by_resource (resource_id (resource c))
      (Some (start_time c)) (Some (end_time c)) (Some APPROVED) st
    = (Return result, st) ->
    e ∈ conflicts -> e ∈ result.
Proof.
  intros c conflicts result Hc Hq He.
  rewrite check_conflicts_run in Hc. injection Hc as <-.
  apply elem_of_conflicts_for in He as (He & Hid & Hres & Hst & Hlt & Hgt).
  unfold get_bookings_by_resource, gets in Hq. injection Hq as <-.
  rewrite sorted_perm, !filter_andb.
  apply list_elem_of_In, filter_In. split; [by apply list_elem_of_In|].
  fold c in Hres, Hlt, Hgt.
  rewrite Hres, String.eqb_refl, dt_geb_leb, (dt_ltb_leb _ _ Hlt).
  rewrite dt_gtb_ltb in Hgt. rewrite (dt_ltb_leb _ _ Hgt).
  by rewrite bool_decide_eq_true_2.
Qed.

(** ** The registries *)

(** X15: [register_resource] and [register_user] store the object under its
    id, leave every other key, the bookings and the audit log as they are,
    and a second registration under the same id replaces the first. *)
Theorem register_round_trip (st : State) :
  (forall r,
     let st' := exec (register_resource r) st in
     resources st' !! resource_id r = Some r
     /\ (forall k, k <> resource_id r -> resources st' !! k = resources st !! k)
     /\ users st' = users st /\ same_bookings st st' /\ audit_log st' = audit_log st
     /\ forall r2, resource_id r2 = resource_id r ->
          exec (register_resource r2) st' = exec (register_resource r2) st)
  /\ (forall u,
        let st' := exec (register_user u) st in
        users st' !! user_id u = Some u
        /\ (forall k, k <> user_id u -> users st' !! k = users st !! k)
        /\ resources st' = resources st /\ same_bookings st st'
        /\ audit_log st' = audit_log st
        /\ forall u2, user_id u2 = user_id u ->
             exec (register_user u2) st' = exec (register_user u2) st).
Proof.
  split.
  - intros r st'. unfold st', exec, register_resource, modify. simpl.
    split; [apply lookup_insert_eq|].
    split; [intros k Hk; by apply lookup_insert_ne|].
    split; [done|]. split; [done|]. split; [done|].
    intros r2 ->. by rewrite insert_insert_eq.
  - intros u st'. unfold st', exec, register_user, modify. simpl.
    split; [apply lookup_insert_eq|].
    split; [intros k Hk; by apply lookup_insert_ne|].
    split; [done|]. split; [done|]. split; [done|].
    intros u2 ->. by rewrite insert_insert_eq.
Qed.

(** ** The clock *)

Lemma StronglySorted_snoc {A} (R : A -> A -> Prop) l x :
  StronglySorted R l -> Forall (fun y => R y x) l -> StronglySorted R (l ++ [x]).
Proof.
  induction 1 as [|y l Hs IH Hy]; intros Hx; simpl.
  - repeat constructor.
  - apply Forall_cons in Hx as [Hyx Hx]. constructor; [by apply IH|].
    apply Forall_app. split; [done|]. by constructor.
Qed.

(** X16: when the clock read by successive calls does not go back, the
    audit log of a system that started empty is ascending in its
    timestamps. *)
Theorem session_log_sorted (cs : list Call) (h : loc -> Booking) (n : loc) :
  StronglySorted (fun a b => dt_leb a b = true) (map call_now cs) ->
  log_sorted (session cs (init_system h n)).
Proof.
  assert (forall st,
            log_sorted st ->
            Forall (fun e => Forall (fun c => dt_leb (timestamp e) (call_now c) = true) cs)
                   (audit_log st) ->
            StronglySorted (fun a b => dt_leb a b = true) (map call_now cs) ->
            log_sorted (session cs st)) as H.
  { induction cs as [|c cs IH]; intros st Hs Hb Hc; [done|].
    rewrite session_cons. simpl in Hc. apply StronglySorted_inv in Hc as [Hc Hhd].
    rewrite Forall_map in Hhd.
    destruct (call_log_shape c st) as [Hlog|(e & Hlog & Ht & _)].
    - apply IH; [by unfold log_sorted; rewrite Hlog| |done].
      rewrite Hlog. eapply Forall_impl; [exact Hb|].
      intros e He. by apply Forall_cons in He as [_ He].
    - unfold appended in Hlog. apply IH; [| |done].
      + unfold log_sorted. rewrite Hlog. apply StronglySorted_snoc; [done|].
        eapply Forall_impl; [exact Hb|].
        intros e' He'. apply Forall_cons in He' as [He' _]. by rewrite Ht.
      + rewrite Hlog. apply Forall_app. split.
        * eapply Forall_impl; [exact Hb|].
          intros e' He'. by apply Forall_cons in He' as [_ He'].
        * constructor; [|constructor]. by rewrite Ht. }
  intros Hc. apply H; [constructor|constructor|done].
Qed.

(** ** Retrying with an override *)

(** X17: after an [approve_booking] that returned [False], the same approver
    calling again with [force_override] gets [True]: the booking is
    APPROVED and the new entry is an OVERRIDE entry. *)
Theorem approve_retry_with_override (st st1 : State) (booking : loc)
    (approver : User) (w w' : Fresh) :
  approve_booking booking approver false w st = (Return false, st1) ->
  exists st2 entry,
    approve_booking booking approver true w' st1 = (Return true, st2)
    /\ status (heap st2 booking) = APPROVED
    /\ appended st1 st2 entry
    /\ action entry = OVERRIDE
    /\ previous_status entry = Some (status_value (status (heap st booking))).
Proof.
  intros Hrun. destruct (_is_staff_or_admin approver) eqn:Ha;
    [|by rewrite (approve_booking_unauthorized _ _ _ _ _ Ha) in Hrun].
  rewrite (approve_booking_run _ _ _ _ _ Ha) in Hrun. cbv zeta in Hrun.
  destruct (truthy (conflicts_for st (heap st booking))) eqn:Hc; [|discriminate].
  cbn [negb andb] in Hrun. injection Hrun as <-.
  rewrite (approve_booking_run _ _ _ _ _ Ha). cbv zeta.
  change (conflicts_for (log st _) (heap (log st _) booking))
    with (conflicts_for st (heap st booking)).
  rewrite Hc. cbn [negb andb]. eexists _, _. split; [reflexivity|].
  split; [by rewrite heap_log, heap_store, decide_True|].
  split; [reflexivity|]. split; [done|].
  unfold previous_status. simpl. apply lookup_singleton_eq.
Qed.

(** ** Ids and double booking *)

Lemma elem_of_map {A B} (f : A -> B) l x : x ∈ l -> f x ∈ map f l.
Proof. intros H. apply list_elem_of_In, in_map. by apply list_elem_of_In. Qed.

Lemma NoDup_map_inj_on {A B} (f : A -> B) l x y :
  NoDup (map f l) -> x ∈ l -> y ∈ l -> f x = f y -> x = y.
Proof.
  induction l as [|z l IH]; simpl; intros Hnd Hx Hy Hf; [by apply elem_of_nil in Hx|].
  apply NoDup_cons in Hnd as [Hz Hnd].
  apply elem_of_cons in Hx as [->|Hx], Hy as [->|Hy]; auto.
  - exfalso. apply Hz. rewrite Hf. by apply elem_of_map.
  - exfalso. apply Hz. rewrite <- Hf. by apply elem_of_map.
Qed.

Lemma booking_ids_step force st st' l :
  step_shape force st st' l -> booking_ids st' = booking_ids st.
Proof.
  intros (b' & (_& Hbk &_&_& Hb & Hother) & (Hid & _) & _).
  unfold booking_ids. rewrite Hbk. apply map_ext. intros x.
  destruct (decide (x = l)) as [->|Hne]; [by rewrite Hb|by rewrite Hother].
Qed.

Lemma call_allocated c st : allocated st -> allocated (call c st).
Proof.
  unfold allocated. intros Ha.
  destruct (call_cases c st) as [(b' & (-> & -> & _) & _)
                                |(b & _ & _ & -> & -> & _)]; [done|].
  apply Forall_app. split; [|repeat constructor].
  eapply Forall_impl; [exact Ha|]. simpl. lia.
Qed.

Lemma call_booking_ids c st :
  allocated st ->
  booking_ids (call c st) = booking_ids st
  \/ exists u, created_ids [c] = [u] /\ booking_ids (call c st) = booking_ids st ++ [u].
Proof.
  intros Ha. destruct c as [res req s e purp prio wb w| | | | |].
  - simpl. unfold exec. destruct (dt_leb e s) eqn:Hv.
    + rewrite create_booking_request_invalid by done. by left.
    + rewrite create_booking_request_run by done. cbv zeta. cbn [snd].
      right. exists (uuid4 wb). split; [done|].
      unfold booking_ids. simpl. rewrite map_app. simpl.
      rewrite fn_lookup_insert. simpl. f_equal.
      apply map_ext_in. intros l Hl%list_elem_of_In.
      rewrite fn_lookup_insert_ne; [done|].
      unfold allocated in Ha. rewrite Forall_forall in Ha. specialize (Ha l Hl). lia.
  - left. eapply booking_ids_step, approve_booking_shape.
  - left. eapply booking_ids_step, deny_booking_shape.
  - left. eapply booking_ids_step, reschedule_booking_shape.
  - left. eapply booking_ids_step, bump_booking_shape.
  - left. eapply booking_ids_step, cancel_booking_shape.
Qed.

Lemma created_ids_cons c cs : created_ids (c :: cs) = created_ids [c] ++ created_ids cs.
Proof. unfold created_ids. simpl. by rewrite app_nil_r. Qed.

Lemma double_booked_conflict st :
  NoDup (booking_ids st) -> double_booked st ->
  exists a, a ∈ bookings st /\ status (heap st a) = APPROVED
            /\ has_conflict st (heap st a).
Proof.
  intros Hnd (a & b & Ha & Hb & Hne & Hsa & Hsb & Hov).
  exists a. split; [done|]. split; [done|]. exists b. split; [done|].
  unfold overlaps_with in Hov. rewrite !andb_true_iff, String.eqb_eq in Hov.
  destruct Hov as [[Hres Hlt] Hgt].
  split; [|done].
  intros Hid. apply Hne. symmetry.
  by apply (NoDup_map_inj_on (fun l => booking_id (heap st l)) (bookings st)).
Qed.

(** On naive datetimes: in a system that started empty, when the ids
    generated for the created bookings are pairwise distinct and no call
    asks for [force_override], the bookings of the collection have pairwise
    distinct ids and no two of them are APPROVED on one resource with
    overlapping intervals. *)
Lemma naive_session_never_double_booked (cs : list Call) (h : loc -> Booking) (n : loc) :
  NoDup (created_ids cs) ->
  Forall (fun c => overrides c = false) cs ->
  let st := session cs (init_system h n) in
  NoDup (booking_ids st) /\ ~ double_booked st.
Proof.
  assert (forall st,
            allocated st -> conflict_free st ->
            NoDup (booking_ids st ++ created_ids cs) ->
            Forall (fun c => overrides c = false) cs ->
            NoDup (booking_ids (session cs st)) /\ conflict_free (session cs st)) as H.
  { induction cs as [|c cs IH]; intros st Hal Hcf Hnd Ho.
    - simpl in *. by rewrite app_nil_r in Hnd.
    - apply Forall_cons in Ho as [Hc Ho]. rewrite session_cons.
      apply IH; [by apply call_allocated|by apply call_conflict_free| |done].
      rewrite created_ids_cons in Hnd.
      destruct (call_booking_ids c st Hal) as [->|(u & Hu & ->)].
      + apply NoDup_app in Hnd as (H1 & H2 & H3).
        apply NoDup_app in H3 as (_ & _ & H3).
        apply NoDup_app. split; [done|]. split; [|done].
        intros x Hx Hx'. apply (H2 x Hx). apply elem_of_app. by right.
      + rewrite Hu in Hnd. by rewrite <- app_assoc. }
  intros Hnd Ho st.
  destruct (H (init_system h n)) as [Hids Hcf]; [constructor| |done|done|].
  { intros a Ha. by apply elem_of_nil in Ha. }
  split; [done|]. intros Hdb.
  destruct (double_booked_conflict _ Hids Hdb) as (a & Ha & Hsa & Hc).
  by apply (Hcf a).
Qed.

(** ** The scenario as a session *)

Example demo_session_state : session demo_session st_empty
  = exec (approve_booking 1 bob false (fresh "e4" 3)) st_b2_pending.
Proof. reflexivity. Qed.

Lemma demo_session_no_override : Forall (fun c => overrides c = false) demo_session.
Proof. repeat constructor. Qed.

Lemma demo_session_ids : NoDup (created_ids demo_session).
Proof. apply (bool_decide_unpack _). vm_compute. exact I. Qed.

Lemma create_booking_request_effect_witness :
  dt_gtb (at_time 12 30) (at_time 10 30) = true
  /\ exists st',
       create_booking_request bay1 carol (at_time 10 30) (at_time 12 30) "training" 0
         (fresh "b2" 2) (fresh "e3" 2) st_b1_approved = (Return 1, st')
       /\ status (heap st' 1) = PENDING
       /\ bookings st' = [0; 1].
Proof.
  assert (dt_gtb (at_time 12 30) (at_time 10 30) = true) as Hv by (vm_compute; reflexivity).
  split; [exact Hv|].
  destruct (create_booking_request_effect st_b1_approved bay1 carol (at_time 10 30)
              (at_time 12 30) "training" 0 (fresh "b2" 2) (fresh "e3" 2) Hv)
    as (st' & e & Hrun & Hb & _ & Hbk & _).
  exists st'. split; [exact Hrun|]. split; [|exact Hbk].
  change (next_loc st_b1_approved) with 1 in Hb. by rewrite Hb.
Defined.

Lemma deny_booking_effect_witness :
  authorized bob
  /\ exists st',
       deny_booking 0 bob "range closed" (fresh "e5" 4) st_b1_approved = (Return tt, st')
       /\ status (heap st' 0) = DENIED.
Proof.
  split; [exact bob_authorized|].
  destruct (deny_booking_effect st_b1_approved 0 bob "range closed" (fresh "e5" 4)
              bob_authorized) as (st' & e & Hrun & Hb & _).
  exists st'. split; [exact Hrun|]. by rewrite Hb.
Defined.

(** B2 has priority 0 and B1 priority 1: B1 is bumped for B2 all the same. *)
Lemma bump_booking_effect_witness :
  authorized bob
  /\ priority (heap st_b2_pending 1) = 0%Z /\ priority (heap st_b2_pending 0) = 1%Z
  /\ exists st' entry,
       bump_booking 0 bob 1 "precedence" (fresh "e5" 4) st_b2_pending = (Return tt, st')
       /\ status (heap st' 0) = BUMPED
       /\ appended st_b2_pending st' entry
       /\ details entry
          = "Booking bumped for higher priority booking b2. Reason: precedence".
Proof.
  split; [exact bob_authorized|]. split; [reflexivity|]. split; [reflexivity|].
  destruct (bump_booking_effect st_b2_pending 0 bob 1 "precedence" (fresh "e5" 4)
              bob_authorized) as (st' & e & Hrun & Hb & _ & _ & _ & Happ & He).
  exists st', e. split; [exact Hrun|]. split; [by rewrite Hb|].
  split; [exact Happ|]. rewrite He. vm_compute. reflexivity.
Defined.

(** Alice is a plain USER and the requester of B1. *)
Lemma cancel_booking_effect_witness :
  user_role alice = USER
  /\ (exists st',
        cancel_booking 0 alice "change of plans" (fresh "e5" 4) st_b1_approved
        = (Return tt, st')
        /\ status (heap st' 0) = CANCELLED)
  /\ cancel_booking 0 carol "mine now" (fresh "e5" 4) st_b1_approved
     = (Raise (PermissionError "Only the requester or staff can cancel a booking"),
        st_b1_approved).
Proof.
  split; [reflexivity|]. split.
  - destruct (cancel_booking_effect st_b1_approved 0 alice "change of plans"
                (fresh "e5" 4)) as [Hok _].
    destruct Hok as (st' & e & Hrun & Hb & _); [by left|].
    exists st'. split; [exact Hrun|]. by rewrite Hb.
  - apply (cancel_booking_effect st_b1_approved 0 carol "mine now" (fresh "e5" 4)).
    intros [Hid|[Hr|Hr]]; vm_compute in *; discriminate.
Defined.

Lemma session_identity_immutable_witness :
  0 < next_loc st_b1_pending
  /\ booking_id (heap (session [ApproveBooking 0 bob false (fresh "e2" 1);
                                RescheduleBooking 0 bob (at_time 14 0) (at_time 16 0)
                                  false (fresh "e3" 2)] st_b1_pending) 0) = "b1".
Proof.
  assert (0 < next_loc st_b1_pending) as Hl by (vm_compute; lia).
  split; [exact Hl|].
  destruct (session_identity_immutable
              [ApproveBooking 0 bob false (fresh "e2" 1);
               RescheduleBooking 0 bob (at_time 14 0) (at_time 16 0) false (fresh "e3" 2)]
              st_b1_pending 0 Hl) as (Hid & _).
  rewrite Hid. reflexivity.
Defined.

Lemma get_audit_trail_window_witness :
  dt_gtb (at_time 9 3) (at_time 9 1) = true
  /\ get_audit_trail None (Some (at_time 9 3)) (Some (at_time 9 1)) st_b2_pending
     = (Return [], st_b2_pending).
Proof.
  assert (dt_gtb (at_time 9 3) (at_time 9 1) = true) as Hgt by (vm_compute; reflexivity).
  split; [exact Hgt|].
  exact (proj1 (get_audit_trail_window st_b2_pending None (at_time 9 3) (at_time 9 1)) Hgt).
Defined.

(** B1 is the only conflict of B2; once B1 is bumped, B2 has none. *)
Lemma release_frees_slot_witness :
  1 <> 0
  /\ outcome (check_conflicts 1) st_b2_pending = Return [0]
  /\ authorized bob
  /\ outcome (check_conflicts 1)
             (exec (bump_booking 0 bob 1 "precedence" (fresh "e5" 4)) st_b2_pending)
     = Return [].
Proof.
  assert (outcome (check_conflicts 1) st_b2_pending = Return [0]) as Hb
    by (vm_compute; reflexivity).
  assert (1 <> 0) as Hne by lia.
  split; [exact Hne|]. split; [exact Hb|]. split; [exact bob_authorized|].
  destruct (release_frees_slot st_b2_pending 0 1 bob "precedence" (fresh "e5" 4)
              Hne [0] Hb) as (_ & Hbump & _).
  exact (Hbump 1 bob_authorized).
Defined.

Lemma conflicts_in_resource_query_witness :
  check_conflicts 1 st_b2_pending = (Return [0], st_b2_pending)
  /\ get_bookings_by_resource "bay-001" (Some (at_time 10 30)) (Some (at_time 12 30))
       (Some APPROVED) st_b2_pending = (Return [0], st_b2_pending)
  /\ 0 ∈ [0].
Proof.
  assert (check_conflicts 1 st_b2_pending = (Return [0], st_b2_pending)) as Hc
    by (vm_compute; reflexivity).
  assert (get_bookings_by_resource "bay-001" (Some (at_time 10 30))
            (Some (at_time 12 30)) (Some APPROVED) st_b2_pending
          = (Return [0], st_b2_pending)) as Hq by (vm_compute; reflexivity).
  split; [exact Hc|]. split; [exact Hq|].
  apply (conflicts_in_resource_query st_b2_pending 1 0 [0] [0] Hc Hq). left.
Defined.

Lemma session_log_sorted_witness :
  StronglySorted (fun a b => dt_leb a b = true) (map call_now demo_session)
  /\ log_sorted (session demo_session st_empty).
Proof.
  assert (StronglySorted (fun a b => dt_leb a b = true) (map call_now demo_session))
    as Hs by (simpl; repeat constructor).
  split; [exact Hs|]. exact (session_log_sorted demo_session _ 0 Hs).
Defined.

Lemma approve_retry_with_override_witness :
  approve_booking 1 bob false (fresh "e4" 3) st_b2_pending
  = (Return false, exec (approve_booking 1 bob false (fresh "e4" 3)) st_b2_pending)
  /\ outcome (approve_booking 1 bob true (fresh "e5" 4))
             (exec (approve_booking 1 bob false (fresh "e4" 3)) st_b2_pending)
     = Return true.
Proof.
  assert (approve_booking 1 bob false (fresh "e4" 3) st_b2_pending
          = (Return false,
             exec (approve_booking 1 bob false (fresh "e4" 3)) st_b2_pending)) as Hrun
    by (vm_compute; reflexivity).
  split; [exact Hrun|].
  destruct (approve_retry_with_override _ _ 1 bob (fresh "e4" 3) (fresh "e5" 4) Hrun)
    as (st2 & e & Hrun2 & _).
  unfold outcome. by rewrite Hrun2.
Defined.

(** ** The trail of one booking *)

Lemma call_step_shape c st :
  is_create c = false -> step_shape (overrides c) st (call c st) (target c st).
Proof.
  destruct c; simpl; [discriminate|..]; intros _.
  - apply approve_booking_shape.
  - apply deny_booking_shape.
  - apply reschedule_booking_shape.
  - apply bump_booking_shape.
  - apply cancel_booking_shape.
Qed.

Lemma step_shape_ids force st st' l x :
  step_shape force st st' l -> booking_id (heap st' x) = booking_id (heap st x).
Proof.
  intros (b' & (_&_&_&_& Hb & Hother) & (Hid & _) & _).
  destruct (decide (x = l)) as [->|Hne]; [by rewrite Hb|by rewrite Hother].
Qed.

(** X20: an approve, deny, reschedule, bump or cancel call extends the trail
    that [get_audit_trail] returns for a non-empty booking id by at most one
    entry, which is about the call's booking and stamped with the call's
    time, and by none when the call's booking has another id. *)
Theorem audit_trail_after_call (c : Call) (st : State) (i : string) :
  is_create c = false ->
  i <> EmptyString ->
  exists old new,
    get_audit_trail (Some i) None None st = (Return old, st)
    /\ get_audit_trail (Some i) None None (call c st) = (Return (old ++ new), call c st)
    /\ length new <= 1
    /\ (booking_id (heap st (target c st)) <> i -> new = [])
    /\ Forall (fun e => booking e = target c st /\ timestamp e = call_now c) new.
Proof.
  intros Hc Hi. apply String.eqb_neq in Hi.
  pose proof (call_step_shape c st Hc) as Hshape.
  unfold get_audit_trail, gets, str_truthy. rewrite Hi. cbn [negb].
  set (p := fun e => String.eqb (booking_id (heap st (booking e))) i).
  assert (forall l, List.filter
                      (fun e => String.eqb (booking_id (heap (call c st) (booking e))) i) l
                    = List.filter p l) as Hp.
  { intros l. apply filter_ext. intros e. unfold p.
    by rewrite (step_shape_ids _ _ _ _ _ Hshape). }
  rewrite Hp. exists (List.filter p (audit_log st)).
  destruct (call_log_shape c st) as [->|(e & -> & Ht & Hb)].
  - exists []. rewrite app_nil_r. repeat split; [simpl; lia|constructor].
  - exists (List.filter p [e]). rewrite List.filter_app.
    split; [done|]. split; [done|]. simpl. unfold p at 1 2 3. rewrite Hb.
    destruct (String.eqb_spec (booking_id (heap st (target c st))) i) as [Heq|Hne].
    + split; [simpl; lia|]. split; [done|]. by repeat constructor.
    + split; [simpl; lia|]. split; [done|]. constructor.
Qed.

Lemma audit_trail_after_call_witness :
  is_create (ApproveBooking 1 bob false (fresh "e4" 3)) = false
  /\ "b2" <> EmptyString
  /\ exists old new,
       get_audit_trail (Some "b2") None None st_b2_pending = (Return old, st_b2_pending)
       /\ get_audit_trail (Some "b2") None None
            (call (ApproveBooking 1 bob false (fresh "e4" 3)) st_b2_pending)
          = (Return (old ++ new),
             call (ApproveBooking 1 bob false (fresh "e4" 3)) st_b2_pending).
Proof.
  assert ("b2" <> EmptyString) as Hi by discriminate.
  split; [reflexivity|]. split; [exact Hi|].
  destruct (audit_trail_after_call (ApproveBooking 1 bob false (fresh "e4" 3))
              st_b2_pending "b2" eq_refl Hi) as (old & new & H1 & H2 & _).
  by exists old, new.
Defined.

Lemma session_never_back_to_pending_witness :
  0 < next_loc st_b1_denied
  /\ status (heap st_b1_denied 0) <> PENDING
  /\ status (heap (session [ApproveBooking 0 bob false (fresh "e3" 2);
                            CancelBooking 0 alice "done" (fresh "e4" 3)]
                     st_b1_denied) 0) <> PENDING.
Proof.
  assert (0 < next_loc st_b1_denied) as Hl by (vm_compute; lia).
  assert (status (heap st_b1_denied 0) <> PENDING) as Hs by (vm_compute; discriminate).
  split; [exact Hl|]. split; [exact Hs|].
  exact (session_never_back_to_pending _ st_b1_denied 0 Hl Hs).
Defined.

(** * Properties with time zones *)

(** ** Comparisons *)

Lemma tz_cmp_naive a b : tz_cmp (naive_dt a) (naive_dt b) = Return (dt_cmp a b).
Proof. reflexivity. Qed.






(** ** The scan *)


Lemma conflicts_total_spec candidate other :
  conflicts_total candidate other = true <-> tz_conflicting candidate other.
Proof.
  unfold conflicts_total, Aware.conflicts_with, Aware.overlaps_with, tz_conflicting.
  destruct (String.eqb_spec (booking_id (naive other)) (booking_id (naive candidate)))
    as [Hid|Hid]; simpl; [intuition discriminate|].
  destruct (bool_decide_reflect (status (naive other) = APPROVED)) as [Hs|Hs];
    simpl; [|intuition discriminate].
  destruct (String.eqb_spec (resource_id (resource (naive candidate)))
                            (resource_id (resource (naive other)))) as [Hr|Hr];
    simpl; [|intuition (discriminate || congruence)].
  destruct (tz_ltb (tz_start_time candidate) (tz_end_time other)) as [[]|];
    simpl; [|intuition discriminate|intuition discriminate].
  destruct (tz_gtb (tz_end_time candidate) (tz_start_time other)) as [[]|];
    simpl; intuition (discriminate || congruence).
Qed.

Lemma tz_scan (f : loc -> Outcome bool) (p : loc -> bool) l acc :
  (forall e, e ∈ l -> f e = Return (p e)) ->
  fold_left (fun acc existing =>
               conflicts ← acc; c ← f existing;
               mret (if (c : bool) then conflicts ++ [existing] else conflicts))
            l (Return acc)
  = Return (acc ++ List.filter p l).
Proof.
  revert acc. induction l as [|x l IH]; intros acc Hf; simpl.
  - by rewrite app_nil_r.
  - rewrite (Hf x) by left. simpl.
    rewrite IH by (intros e He; apply Hf; by right).
    destruct (p x); [|done]. by rewrite <- app_assoc.
Qed.




(** ** Running [reschedule_booking] *)

Lemma view_eq g l :
  view g l = mk_TzBooking (heap (naive_state g) l) (fst (offsets g l)) (snd (offsets g l)).
Proof. reflexivity. Qed.



(** ** Rescheduling with time zones *)

Example tz_b2_pending_state :
  naive_state tz_b2_pending = st_b2_pending
  /\ offsets tz_b2_pending 0 = (None, None) /\ offsets tz_b2_pending 1 = (None, None).
Proof. repeat split. Qed.





(** ** Naive values *)

Lemma aware_false d : aware d = false -> d = naive_dt (fields d).
Proof. destruct d as [f [o|]]; [discriminate|done]. Qed.

Lemma tz_ltb_naive a b : tz_ltb (naive_dt a) (naive_dt b) = Return (dt_ltb a b).
Proof. reflexivity. Qed.
Lemma tz_leb_naive a b : tz_leb (naive_dt a) (naive_dt b) = Return (dt_leb a b).
Proof. reflexivity. Qed.
Lemma tz_gtb_naive a b : tz_gtb (naive_dt a) (naive_dt b) = Return (dt_gtb a b).
Proof. reflexivity. Qed.

Lemma append_empty_r (s : string) : s +:+ EmptyString = s.
Proof.
  induction s as [|c s IH]; [done|].
  change (String c (s +:+ EmptyString) = String c s). by rewrite IH.
Qed.

Lemma tz_str_naive d : tz_str (naive_dt d) = str_datetime d.
Proof. exact (append_empty_r _). Qed.
Lemma tz_isoformat_naive d : tz_isoformat (naive_dt d) = isoformat d.
Proof. exact (append_empty_r _). Qed.

Lemma view_naive g l :
  naive_offsets g -> view g l = mk_TzBooking (heap (naive_state g) l) None None.
Proof. intros H. unfold view. by rewrite H. Qed.

Lemma overlaps_with_naive a b :
  Aware.overlaps_with (mk_TzBooking a None None) (mk_TzBooking b None None)
  = Return (overlaps_with a b).
Proof.
  unfold Aware.overlaps_with, overlaps_with, tz_ltb, tz_gtb, tz_cmp, dt_ltb, dt_gtb.
  simpl. destruct (String.eqb _ _); [|done]. simpl.
  destruct (dt_cmp (start_time a) (end_time b)); simpl; try done.
Qed.

Lemma conflicts_with_naive a b :
  Aware.conflicts_with (mk_TzBooking a None None) (mk_TzBooking b None None)
  = Return (conflicts_with a b).
Proof.
  unfold Aware.conflicts_with, conflicts_with. simpl.
  destruct (negb _); [|done]. destruct (bool_decide _); [|done].
  apply overlaps_with_naive.
Qed.

Lemma tz_conflicting_naive a b :
  tz_conflicting (mk_TzBooking a None None) (mk_TzBooking b None None)
  <-> conflicting a b.
Proof.
  rewrite <- conflicts_total_spec, <- conflicts_with_spec.
  unfold conflicts_total. by rewrite conflicts_with_naive.
Qed.

Lemma tz_has_conflict_naive g l :
  naive_offsets g ->
  tz_has_conflict g (view g l) <-> has_conflict (naive_state g) (heap (naive_state g) l).
Proof.
  intros H. unfold tz_has_conflict, has_conflict. rewrite (view_naive g l H).
  split; intros (e & He & Hc); exists e; (split; [done|]).
  - rewrite (view_naive g e H) in Hc. by apply tz_conflicting_naive.
  - rewrite (view_naive g e H). by apply tz_conflicting_naive.
Qed.

Lemma tz_conflict_free_naive g :
  naive_offsets g -> tz_conflict_free g <-> conflict_free (naive_state g).
Proof.
  intros H. unfold tz_conflict_free, conflict_free.
  split; intros Hcf a Ha Hs Hc; apply (Hcf a Ha Hs); by apply (tz_has_conflict_naive g a H).
Qed.

Lemma tz_double_booked_naive g :
  naive_offsets g -> tz_double_booked g <-> double_booked (naive_state g).
Proof.
  intros H. unfold tz_double_booked, double_booked.
  split; intros (a & b & Ha & Hb & Hne & Hsa & Hsb & Ho); exists a, b;
    (split; [done|]); (split; [done|]); (split; [done|]);
    (split; [done|]); (split; [done|]).
  - rewrite (view_naive g a H), (view_naive g b H), overlaps_with_naive in Ho. congruence.
  - rewrite (view_naive g a H), (view_naive g b H), overlaps_with_naive. congruence.
Qed.

Lemma check_conflicts_naive booking g :
  naive_offsets g ->
  Aware.check_conflicts booking g
  = (Return (conflicts_for (naive_state g) (heap (naive_state g) booking)), g).
Proof.
  intros H. unfold Aware.check_conflicts, conflicts_for. f_equal.
  apply (tz_scan (fun e => Aware.conflicts_with (view g booking) (view g e))
                 (fun e => conflicts_with (heap (naive_state g) booking)
                                          (heap (naive_state g) e)) _ []).
  intros e _. rewrite (view_naive g booking H), (view_naive g e H).
  apply conflicts_with_naive.
Qed.

(** ** The methods on naive values *)

Lemma lift_simulates {A} (n : Py A) : simulates (lift n) n.
Proof.
  intros g H. unfold tz_outcome, tz_exec, outcome, exec, lift.
  destruct (n (naive_state g)) as [r st]. done.
Qed.

Lemma create_booking_request_simulates res req s e purp prio wb w :
  simulates (Aware.create_booking_request res req (naive_dt s) (naive_dt e) purp prio wb w)
            (create_booking_request res req s e purp prio wb w).
Proof.
  intros g H.
  unfold tz_outcome, tz_exec, outcome, exec,
    Aware.create_booking_request, create_booking_request,
    Aware.Booking_init, Booking_init.
  tz_unfold. py_unfold. rewrite tz_leb_naive. cbv beta iota zeta.
  destruct (dt_leb e s); simpl; [done|].
  split; [done|]. split; [done|].
  intros l. simpl. destruct (decide (l = next_loc (naive_state g))) as [->|Hl].
  - by rewrite fn_lookup_insert.
  - by rewrite fn_lookup_insert_ne.
Qed.

Lemma approve_booking_simulates booking who force w :
  simulates (Aware.approve_booking booking who force w)
            (approve_booking booking who force w).
Proof.
  intros g H.
  unfold tz_outcome, tz_exec, outcome, exec, Aware.approve_booking, approve_booking.
  destruct (_is_staff_or_admin who); cbn [negb]; [|done].
  tz_unfold. py_unfold.
  rewrite (check_conflicts_naive booking g H), check_conflicts_run.
  cbv beta iota zeta.
  destruct (truthy _ && negb force); simpl; [done|].
  destruct (force && truthy _); done.
Qed.

Lemma reschedule_booking_simulates booking who ns ne force w :
  simulates (Aware.reschedule_booking booking who (naive_dt ns) (naive_dt ne) force w)
            (reschedule_booking booking who ns ne force w).
Proof.
  intros g H.
  unfold tz_outcome, tz_exec, outcome, exec, Aware.reschedule_booking, reschedule_booking.
  destruct (_is_staff_or_admin who); cbn [negb]; [|done].
  tz_unfold. py_unfold. rewrite tz_leb_naive. cbv beta iota zeta.
  destruct (dt_leb ne ns); [done|].
  match goal with |- context [Aware.check_conflicts booking ?x] => set (g2 := x) end.
  assert (naive_offsets g2) as H2.
  { intros l. unfold g2. simpl. destruct (decide (l = booking)) as [->|Hl].
    - rewrite !fn_lookup_insert. done.
    - rewrite !fn_lookup_insert_ne by done. apply H. }
  rewrite (check_conflicts_naive booking g2 H2).
  match goal with |- context [check_conflicts booking ?x] =>
    change x with (naive_state g2) end.
  rewrite check_conflicts_run. cbv beta iota zeta.
  rewrite (view_naive g booking H).
  unfold tz_start_time, tz_end_time. simpl.
  change (mk_tz (start_time (heap (naive_state g) booking)) None)
    with (naive_dt (start_time (heap (naive_state g) booking))).
  change (mk_tz (end_time (heap (naive_state g) booking)) None)
    with (naive_dt (end_time (heap (naive_state g) booking))).
  rewrite !tz_str_naive, !tz_isoformat_naive.
  destruct (truthy _ && negb force); simpl.
  - split; [done|]. split; [done|].
    intros l. simpl. destruct (decide (l = booking)) as [->|Hl].
    + rewrite !fn_lookup_insert. simpl. by rewrite ?H.
    + rewrite !fn_lookup_insert_ne by done. apply H.
  - split; [done|]. split; [done|].
    intros l. simpl. destruct (decide (l = booking)) as [->|Hl].
    + rewrite !fn_lookup_insert. simpl. by rewrite ?H.
    + rewrite !fn_lookup_insert_ne by done. apply H.
Qed.

Lemma call_simulates c g :
  naive_offsets g -> naive_call c = true ->
  naive_state (Aware.call c g) = call (strip c) (naive_state g)
  /\ naive_offsets (Aware.call c g).
Proof.
  intros H Hc. destruct c as [res req s e purp prio wb w|l who force w|l who reason w
                              |l who ns ne force w|l who higher reason w|l who reason w];
    simpl in *.
  - apply andb_prop in Hc as [Hs He].
    apply negb_true_iff in Hs, He.
    rewrite (aware_false s Hs), (aware_false e He). simpl.
    by destruct (create_booking_request_simulates res req (fields s) (fields e)
                   purp prio wb w g H) as (_ & ? & ?).
  - by destruct (approve_booking_simulates l who force w g H) as (_ & ? & ?).
  - by destruct (lift_simulates (deny_booking l who reason w) g H) as (_ & ? & ?).
  - apply andb_prop in Hc as [Hs He].
    apply negb_true_iff in Hs, He.
    rewrite (aware_false ns Hs), (aware_false ne He). simpl.
    by destruct (reschedule_booking_simulates l who (fields ns) (fields ne) force w g H)
      as (_ & ? & ?).
  - by destruct (lift_simulates (bump_booking l who higher reason w) g H) as (_ & ? & ?).
  - by destruct (lift_simulates (cancel_booking l who reason w) g H) as (_ & ? & ?).
Qed.

Lemma tz_session_cons c cs g : Aware.session (c :: cs) g = Aware.session cs (Aware.call c g).
Proof. reflexivity. Qed.

Lemma session_simulates cs g :
  naive_offsets g -> Forall (fun c => naive_call c = true) cs ->
  naive_state (Aware.session cs g) = session (map strip cs) (naive_state g)
  /\ naive_offsets (Aware.session cs g).
Proof.
  revert g. induction cs as [|c cs IH]; intros g H Hn; [done|].
  apply Forall_cons in Hn as [Hc Hn].
  destruct (call_simulates c g H Hc) as [Hst Hoff].
  rewrite tz_session_cons. simpl map. rewrite session_cons, <- Hst. by apply IH.
Qed.

Lemma overrides_strip c : overrides (strip c) = Aware.overrides c.
Proof. by destruct c. Qed.

Lemma created_ids_strip cs :
  created_ids (map strip cs)
  = flat_map (fun c => match c with
                       | Aware.CreateBookingRequest _ _ _ _ _ _ wb _ => [uuid4 wb]
                       | _ => []
                       end) cs.
Proof. induction cs as [|c cs IH]; [done|]. simpl. rewrite <- IH. by destruct c. Qed.

(** ** Clients with naive times *)

(** X9: when every time in the state and in the calls is naive, calls
    without [force_override] keep the collection free of conflicts: no
    APPROVED booking of the collection conflicts with another one. *)
Theorem tz_session_conflict_free (cs : list Aware.Call) (g : TzState) :
  naive_offsets g ->
  Forall (fun c => naive_call c = true) cs ->
  Forall (fun c => Aware.overrides c = false) cs ->
  tz_conflict_free g ->
  tz_conflict_free (Aware.session cs g).
Proof.
  intros H Hn Ho Hcf.
  destruct (session_simulates cs g H Hn) as [Hst Hoff].
  apply (tz_conflict_free_naive _ Hoff). rewrite Hst.
  apply naive_session_conflict_free.
  - apply Forall_map. eapply Forall_impl; [exact Ho|].
    intros c Hc. simpl. by rewrite overrides_strip.
  - by apply (tz_conflict_free_naive g H).
Qed.

(** X18: in a system that started empty, when every time the calls pass is
    naive, the ids generated for the created bookings are pairwise
    distinct and no call asks for [force_override], the bookings of the
    collection have pairwise distinct ids and no two of them are APPROVED
    with [overlaps_with] true. *)
Theorem tz_session_never_double_booked (cs : list Aware.Call)
    (h : loc -> Booking) (n : loc) :
  Forall (fun c => naive_call c = true) cs ->
  NoDup (created_ids (map strip cs)) ->
  Forall (fun c => Aware.overrides c = false) cs ->
  let g := Aware.session cs (tz_init_system h n) in
  NoDup (booking_ids (naive_state g)) /\ ~ tz_double_booked g.
Proof.
  intros Hn Hnd Ho g.
  assert (naive_offsets (tz_init_system h n)) as H by (intros l; reflexivity).
  destruct (session_simulates cs _ H Hn) as [Hst Hoff]. fold g in Hst, Hoff.
  destruct (naive_session_never_double_booked (map strip cs) h n Hnd) as [Hids Hdb].
  { apply Forall_map. eapply Forall_impl; [exact Ho|].
    intros c Hc. simpl. by rewrite overrides_strip. }
  change (naive_state (tz_init_system h n)) with (init_system h n) in Hst.
  rewrite Hst. split; [exact Hids|].
  intros Hd. apply Hdb. apply (tz_double_booked_naive g Hoff) in Hd.
  by rewrite Hst in Hd.
Qed.

(** The hypothesis on the times is needed: in [tz_mixed_session] no call
    asks for [force_override] and the ids are distinct, both reschedules end
    by [TypeError] after the times were written, and the second and third
    booking are left APPROVED on one resource with overlapping intervals. *)
Example tz_mixed_session_double_booked :
  Forall (fun c => Aware.overrides c = false) tz_mixed_session
  /\ NoDup (created_ids (map strip tz_mixed_session))
  /\ tz_double_booked (Aware.session tz_mixed_session
                         (tz_init_system (fun _ => no_booking) 0)).
Proof.
  split; [repeat constructor|].
  split; [apply (bool_decide_unpack _); vm_compute; exact I|].
  exists 1, 2.
  assert (bookings (naive_state (Aware.session tz_mixed_session
            (tz_init_system (fun _ => no_booking) 0))) = [0; 1; 2]) as ->
    by (vm_compute; reflexivity).
  split; [set_solver|]. split; [set_solver|]. split; [lia|].
  split; [vm_compute; reflexivity|]. split; vm_compute; reflexivity.
Qed.

Lemma tz_demo_session_naive : Forall (fun c => naive_call c = true) tz_demo_session.
Proof. repeat constructor. Qed.

Lemma tz_demo_session_no_override :
  Forall (fun c => Aware.overrides c = false) tz_demo_session.
Proof. repeat constructor. Qed.

Lemma tz_demo_session_ids : NoDup (created_ids (map strip tz_demo_session)).
Proof. apply (bool_decide_unpack _). vm_compute. exact I. Qed.

Lemma tz_init_system_naive h n : naive_offsets (tz_init_system h n).
Proof. intros l. reflexivity. Qed.

Lemma tz_init_system_conflict_free h n : tz_conflict_free (tz_init_system h n).
Proof. intros a Ha. by apply elem_of_nil in Ha. Qed.

Lemma tz_session_conflict_free_witness :
  naive_offsets (tz_init_system (fun _ => no_booking) 0)
  /\ Forall (fun c => naive_call c = true) tz_demo_session
  /\ Forall (fun c => Aware.overrides c = false) tz_demo_session
  /\ tz_conflict_free (tz_init_system (fun _ => no_booking) 0)
  /\ tz_conflict_free (Aware.session tz_demo_session
                         (tz_init_system (fun _ => no_booking) 0)).
Proof.
  split; [apply tz_init_system_naive|].
  split; [exact tz_demo_session_naive|].
  split; [exact tz_demo_session_no_override|].
  split; [apply tz_init_system_conflict_free|].
  exact (tz_session_conflict_free tz_demo_session _
           (tz_init_system_naive _ 0) tz_demo_session_naive
           tz_demo_session_no_override (tz_init_system_conflict_free _ 0)).
Defined.

Lemma tz_session_never_double_booked_witness :
  Forall (fun c => naive_call c = true) tz_demo_session
  /\ NoDup (created_ids (map strip tz_demo_session))
  /\ Forall (fun c => Aware.overrides c = false) tz_demo_session
  /\ NoDup (booking_ids (naive_state
              (Aware.session tz_demo_session (tz_init_system (fun _ => no_booking) 0))))
  /\ ~ tz_double_booked
         (Aware.session tz_demo_session (tz_init_system (fun _ => no_booking) 0)).
Proof.
  split; [exact tz_demo_session_naive|].
  split; [exact tz_demo_session_ids|].
  split; [exact tz_demo_session_no_override|].
  exact (tz_session_never_double_booked tz_demo_session (fun _ => no_booking) 0
           tz_demo_session_naive tz_demo_session_ids tz_demo_session_no_override).
Defined.
